(** * Resale dashboard: the aggregation behind the heatmap and the totals table

    A shallow embedding of [app.py]: the load-time derivation of the
    weekday and hour columns, [generate_patient_volume_heatmap],
    [update_heatmap] and [update_patient_volume_table], together with the
    pieces of [datetime], [pandas] and [numpy] they rely on.

    Conventions.
    - A timestamp is a [Z]: nanoseconds since 1970-01-01 00:00:00, as in a
      [datetime64[ns]] column.  Check-in times are parsed with a format that
      has no fraction of a second, so a loaded timestamp is a whole number
      of seconds.
    - A calendar date coming from the date picker is a [Z]: its number of
      days since 1970-01-01 ([date y m d] builds one from a civil date).
    - The column [Number of Records] holds integers: [read_csv] gives it the
      dtype int64, and [series.sum()] adds modulo 2^64 ([Int64]).
    - A cell of the array [z] is a float64; it only ever holds 0.0 plus
      int64 values, so it is a whole number, an infinity or a NaN
      ([Float64]); every addition rounds to the nearest float64.
    - A [DataFrame] is the list of its rows in row order.
    - A raised exception is [None].  The one exception modelled is the
      [IndexError] of an array update; the labels of a date slice are taken
      within the range of [datetime64[ns]], outside of which the code
      raises [OutOfBoundsDatetime]. *)

From Stdlib Require Import ZArith List Bool Lia Permutation Sorted.
From Stdlib Require Import Strings.String Strings.Ascii.
Import ListNotations.

Local Open Scope Z_scope.

(* ================================================================== *)
(** ** [datetime]: civil dates, weekday and the two [strftime] formats  *)
(* ================================================================== *)

Module Datetime.

Definition NS_PER_SECOND : Z := 1000000000.
Definition SECONDS_PER_DAY : Z := 86400.

Definition is_leap (year : Z) : bool :=
  (year mod 4 =? 0) && (negb (year mod 100 =? 0) || (year mod 400 =? 0)).

(** Number of days before January 1st of [year] (proleptic Gregorian). *)
Definition days_before_year (year : Z) : Z :=
  let y := year - 1 in y * 365 + y / 4 - y / 100 + y / 400.

(** Number of days in [year] before the first day of [month]. *)
Definition days_before_month (year month : Z) : Z :=
  nth (Z.to_nat month) [0; 0; 31; 59; 90; 120; 151; 181; 212; 243; 273; 304; 334] 0
  + (if (2 <? month) && is_leap year then 1 else 0).

(** [date(y, m, d).toordinal()]: 0001-01-01 is day 1. *)
Definition toordinal (year month day : Z) : Z :=
  days_before_year year + days_before_month year month + day.

(** Day number of a civil date, counted from 1970-01-01 (ordinal 719163). *)
Definition date (year month day : Z) : Z := toordinal year month day - 719163.

(** The timestamp of 00:00:00 on day [d]. *)
Definition midnight (d : Z) : Z := d * SECONDS_PER_DAY * NS_PER_SECOND.

(** [datetime(y, m, d, H, M, S)] in seconds since the epoch. *)
Definition epoch_seconds (year month day hour minute second : Z) : Z :=
  date year month day * SECONDS_PER_DAY + hour * 3600 + minute * 60 + second.

(** [datetime(y, m, d, H, M, S)] as a timestamp. *)
Definition datetime (year month day hour minute second : Z) : Z :=
  epoch_seconds year month day hour minute second * NS_PER_SECOND.

(** Whole seconds since the epoch, rounding down. *)
Definition seconds_of (t : Z) : Z := t / NS_PER_SECOND.

(** [t.weekday()]: Monday is 0; 1970-01-01 was a Thursday. *)
Definition weekday (t : Z) : Z := (seconds_of t / SECONDS_PER_DAY + 3) mod 7.

(** [t.hour], 0..23. *)
Definition hour (t : Z) : Z := (seconds_of t / 3600) mod 24.

Definition weekday_name (w : Z) : string :=
  match w with
  | 0 => "Monday" | 1 => "Tuesday" | 2 => "Wednesday" | 3 => "Thursday"
  | 4 => "Friday" | 5 => "Saturday" | _ => "Sunday"
  end%string.

(** [strftime(t, "%A")]. *)
Definition strftime_A (t : Z) : string := weekday_name (weekday t).

Definition digit (n : Z) : ascii := ascii_of_nat (48 + Z.to_nat n).

(** A number below 100 on two digits, zero padded. *)
Definition two_digits (n : Z) : string :=
  String (digit (n / 10)) (String (digit (n mod 10)) EmptyString).

(** [strftime(t, "%I %p")]: hour on the 12-hour clock, then AM or PM. *)
Definition strftime_I_p (t : Z) : string :=
  let h := hour t in
  let h12 := if h mod 12 =? 0 then 12 else h mod 12 in
  let suffix := if h <? 12 then "AM"%string else "PM"%string in
  (two_digits h12 ++ " " ++ suffix)%string.

(** [strptime(f"{i:02}:00", "%H:%M")]: the missing date defaults to
    1900-01-01. *)
Definition strptime_HM (i : Z) : Z := datetime 1900 1 1 i 0 0.

End Datetime.

(* ================================================================== *)
(** ** Machine numbers: int64 sums and float64 cells                     *)
(* ================================================================== *)

Module Int64.

(** The value of an integer in two's complement on 64 bits. *)
Definition wrap (x : Z) : Z := (x + 2 ^ 63) mod 2 ^ 64 - 2 ^ 63.

(** Addition of two int64 values; overflow wraps around silently. *)
Definition add (a b : Z) : Z := wrap (a + b).

End Int64.

Module Float64.

(** The float64 values a cell can take: a finite whole number, an infinity
    or a NaN.  (A cell starts at 0.0 and only has int64 values added to
    it, and such sums never have a fractional part or a negative zero.) *)
Inductive float64 : Type :=
  | Finite (v : Z)
  | PosInf
  | NegInf
  | NaN.

(** The float64 nearest to the integer [x], ties to the even mantissa.  Up
    to 2^53 every integer is a float64.  Above, [x] has [Z.log2 |x| + 1]
    bits of which 53 are kept: [k] bits are dropped, [q] is the mantissa
    and [r] what the dropped bits hold.  A result of magnitude 2^1024 or
    more overflows to an infinity. *)
Definition round (x : Z) : float64 :=
  let a := Z.abs x in
  if a <=? 2 ^ 53 then Finite x
  else
    let k := Z.log2 a - 52 in
    let q := a / 2 ^ k in
    let r := a mod 2 ^ k in
    let half := 2 ^ (k - 1) in
    let q' := if r <? half then q
              else if half <? r then q + 1
              else if Z.even q then q else q + 1 in
    let a' := q' * 2 ^ k in
    if 2 ^ 1024 <=? a' then (if x <? 0 then NegInf else PosInf)
    else Finite (Z.sgn x * a').

(** Conversion of an int64 operand to float64. *)
Definition of_int64 (v : Z) : float64 := round v.

(** Addition of two float64 values. *)
Definition add (x y : float64) : float64 :=
  match x, y with
  | NaN, _ | _, NaN => NaN
  | PosInf, NegInf | NegInf, PosInf => NaN
  | PosInf, _ | _, PosInf => PosInf
  | NegInf, _ | _, NegInf => NegInf
  | Finite a, Finite b => round (a + b)
  end.

(** The number a finite cell holds; 0 for an infinity or a NaN. *)
Definition value (x : float64) : Z :=
  match x with
  | Finite v => v
  | _ => 0
  end.

End Float64.

(* ================================================================== *)
(** ** [pandas]: rows, boolean masks, sorting and label slicing          *)
(* ================================================================== *)

Module Pandas.

(** A row of [df] after the load-time code has run. *)
Record Row : Type := mkRow {
  Clinic_Name : string;
  Admit_Source : string;
  Check_In_Time : Z;
  Days_of_Wk : string;
  Check_In_Hour : string;
  Number_of_Records : Z
}.

Definition DataFrame : Type := list Row.

(** [series.isin(values)], row by row. *)
Definition isin (v : string) (values : list string) : bool :=
  existsb (String.eqb v) values.

(** [df[mask]]: the rows where the mask holds, in row order. *)
Definition loc_mask (mask : Row -> bool) (df : DataFrame) : DataFrame :=
  filter mask df.

Fixpoint insert_by_time (r : Row) (sorted : DataFrame) : DataFrame :=
  match sorted with
  | [] => [r]
  | r' :: rest =>
      if Check_In_Time r <=? Check_In_Time r' then r :: sorted
      else r' :: insert_by_time r rest
  end.

(** [df.sort_values("Check-In Time")]: ascending; rows with equal times keep
    their relative order. *)
Fixpoint sort_values (df : DataFrame) : DataFrame :=
  match df with
  | [] => []
  | r :: rest => insert_by_time r (sort_values rest)
  end.

(** [df.set_index("Check-In Time")]: the time column becomes the index. *)
Definition index (df : DataFrame) : list Z := map Check_In_Time df.

(** [index.searchsorted(v, side="left")] on an ascending index: the length of
    the prefix of labels strictly below [v]. *)
Fixpoint searchsorted_left (idx : list Z) (v : Z) : nat :=
  match idx with
  | [] => O
  | t :: rest => if t <? v then S (searchsorted_left rest v) else O
  end.

(** [index.searchsorted(v, side="right")]: the length of the prefix of labels
    at most [v]. *)
Fixpoint searchsorted_right (idx : list Z) (v : Z) : nat :=
  match idx with
  | [] => O
  | t :: rest => if t <=? v then S (searchsorted_right rest v) else O
  end.

(** Bounds of a slice label written to the second, ["YYYY-MM-DD HH:MM:SS"]:
    the label stands for the whole second, so the left bound is its first
    nanosecond and the right bound its last one. *)
Definition slice_bound_left (label : Z) : Z := label.
Definition slice_bound_right (label : Z) : Z :=
  label + Datetime.NS_PER_SECOND - 1.

(** [df.iloc[lo:hi]]: positions [lo], ..., [hi - 1]; empty when [hi <= lo]. *)
Definition iloc (df : DataFrame) (lo hi : nat) : DataFrame :=
  firstn (hi - lo) (skipn lo df).

(** [df[start:end]] on a frame indexed by ascending check-in times: both
    labels are looked up by bisection and both ends are kept.  The two
    labels are taken to lie within the range of [datetime64[ns]]; for a
    label outside of it the code raises [OutOfBoundsDatetime] before any
    lookup, which this function does not model. *)
Definition slice (df : DataFrame) (start end_ : Z) : DataFrame :=
  iloc df
    (searchsorted_left (index df) (slice_bound_left start))
    (searchsorted_right (index df) (slice_bound_right end_)).

(** The sum of a list of integers in [Z], without wrap-around; what [sum]
    is compared with. *)
Definition exact_sum (values : list Z) : Z := fold_right Z.add 0 values.

(** [series.sum()] on an int64 column: int64 additions, which wrap around;
    0 for an empty series. *)
Definition sum (values : list Z) : Z := fold_right Int64.add 0 values.

End Pandas.

(* ================================================================== *)
(** ** [numpy]: the two-dimensional array [z]                            *)
(* ================================================================== *)

Module Numpy.

Import Float64.

(** A two-dimensional array of dtype float64. *)
Definition ndarray : Type := list (list float64).

(** [np.zeros((rows, cols))]: every cell is 0.0. *)
Definition zeros (rows cols : nat) : ndarray :=
  repeat (repeat (Finite 0) cols) rows.

(** [l[i] = v]; out of range is an [IndexError]. *)
Fixpoint setitem {A : Type} (l : list A) (i : nat) (v : A) : option (list A) :=
  match l, i with
  | [], _ => None
  | _ :: tl, O => Some (v :: tl)
  | hd :: tl, S i' =>
      match setitem tl i' v with
      | Some tl' => Some (hd :: tl')
      | None => None
      end
  end.

(** [z[ind_y][ind_x] += v] for an int64 [v]: the operand is converted to
    float64 and added to the cell. *)
Definition iadd (z : ndarray) (ind_y ind_x : nat) (v : Z) : option ndarray :=
  match nth_error z ind_y with
  | None => None
  | Some row =>
      match nth_error row ind_x with
      | None => None
      | Some c =>
          match setitem row ind_x (Float64.add c (of_int64 v)) with
          | None => None
          | Some row' => setitem z ind_y row'
          end
      end
  end.

(** Reading a cell; 0.0 outside the array. *)
Definition cell (z : ndarray) (i j : nat) : float64 :=
  nth j (nth i z []) (Finite 0).

(** Shape [(rows, cols)]. *)
Definition has_shape (z : ndarray) (rows cols : nat) : Prop :=
  List.length z = rows /\ Forall (fun row => List.length row = cols) z.

(** The sum in [Z] of the numbers the cells hold. *)
Definition total (z : ndarray) : Z :=
  Pandas.exact_sum (map (fun row => Pandas.exact_sum (map value row)) z).

End Numpy.

(* ================================================================== *)
(** ** [app.py]                                                          *)
(* ================================================================== *)

Module App.

Import Datetime Pandas Numpy.

(** A row of the CSV file as the load-time code sees it: the admit source may
    be missing, and the check-in time has been parsed (to the second; the
    field counts seconds since the epoch). *)
Record CsvRow : Type := mkCsvRow {
  csv_clinic_name : string;
  csv_admit_source : option string;
  csv_check_in_time : Z;
  csv_number_of_records : Z
}.

(** [fillna("Not Identified")]. *)
Definition fillna (v : option string) : string :=
  match v with
  | Some s => s
  | None => "Not Identified"%string
  end.

(** The module-level code that builds [df]: fill the missing admit sources,
    parse the check-in time, derive the weekday and hour columns from it. *)
Definition load_row (r : CsvRow) : Row :=
  let t := csv_check_in_time r * NS_PER_SECOND in
  {| Clinic_Name := csv_clinic_name r;
     Admit_Source := fillna (csv_admit_source r);
     Check_In_Time := t;
     Days_of_Wk := strftime_A t;
     Check_In_Hour := strftime_I_p t;
     Number_of_Records := csv_number_of_records r |}.

Definition load (csv : list CsvRow) : DataFrame := map load_row csv.

Definition day_list : list string :=
  ["Monday"; "Tuesday"; "Wednesday"; "Thursday"; "Friday"; "Saturday";
   "Sunday"]%string.

(** [range(a, b)]. *)
Definition range (a b : Z) : list Z :=
  map (fun k => a + Z.of_nat k) (seq 0 (Z.to_nat (b - a))).

(** [[strptime(f"{i:02}:00", "%H:%M").strftime("%I %p") for i in range(7, 19)]]. *)
Definition x_axis : list string :=
  map (fun i => strftime_I_p (strptime_HM i)) (range 7 19).

(** [enumerate(l)]. *)
Definition enumerate {A : Type} (l : list A) : list (nat * A) :=
  combine (seq 0 (List.length l)) l.

(** A [for] loop whose body may raise: the state is threaded through the
    iterations, and the first error ends the loop. *)
Fixpoint for_each {A S : Type} (body : A -> S -> option S) (l : list A) (s : S)
  : option S :=
  match l with
  | [] => Some s
  | a :: rest =>
      match body a s with
      | Some s' => for_each body rest s'
      | None => None
      end
  end.

(** The mask [(df["Clinic Name"] == clinic) & (df["Admit Source"].isin(admit_type))],
    written out in both callbacks. *)
Definition clinic_mask (clinic : string) (admit_type : list string) (r : Row)
  : bool :=
  String.eqb (Clinic_Name r) clinic && isin (Admit_Source r) admit_type.

(** The part of the returned figure that carries data: the two axes and the
    array. *)
Record Figure : Type := mkFigure {
  fig_x : list string;
  fig_y : list string;
  fig_z : ndarray
}.

(** The frame one clinic contributes: rows of that clinic whose admit source
    is selected, sorted by check-in time and sliced by [start:end]. *)
Definition filtered_frame (df : DataFrame) (start end_ : Z) (clinic : string)
    (admit_type : list string) : DataFrame :=
  let filtered_df := loc_mask (clinic_mask clinic admit_type) df in
  slice (sort_values filtered_df) start end_.

(** [sum_of_record] of the innermost loop. *)
Definition sum_of_record (filtered_df : DataFrame) (day x_val : string) : Z :=
  let filtered_day := loc_mask (fun r => String.eqb (Days_of_Wk r) day) filtered_df in
  sum (map Number_of_Records
         (loc_mask (fun r => String.eqb (Check_In_Hour r) x_val) filtered_day)).

Definition generate_patient_volume_heatmap (df : DataFrame) (start end_ : Z)
    (clinics admit_type : list string) : option Figure :=
  let y_axis := day_list in
  let z := zeros 7 24 in
  match
    for_each (fun clinic z =>
      let filtered_df := filtered_frame df start end_ clinic admit_type in
      for_each (fun '(ind_y, day) z =>
        for_each (fun '(ind_x, x_val) z =>
          iadd z ind_y ind_x (sum_of_record filtered_df day x_val))
          (enumerate x_axis) z)
        (enumerate y_axis) z)
      clinics z
  with
  | Some z => Some {| fig_x := x_axis; fig_y := y_axis; fig_z := z |}
  | None => None
  end.

(** The callback of the heatmap: [start] and [end_] are the dates of the
    picker; [" 00:00:00"] is appended to each. *)
Definition update_heatmap (df : DataFrame) (start end_ : Z)
    (clinics admit_type : list string) : option Figure :=
  let start := midnight start in
  let end_ := midnight end_ in
  generate_patient_volume_heatmap df start end_ clinics admit_type.

(** The callback of the table: one [(Clinic Name, Total Records)] row per
    selected clinic. *)
Definition update_patient_volume_table (df : DataFrame)
    (clinics admit_type : list string) : list (string * Z) :=
  match clinics with
  | [] => []
  | _ :: _ =>
      map (fun clinic =>
             (clinic,
              sum (map Number_of_Records
                     (loc_mask (clinic_mask clinic admit_type) df))))
          clinics
  end.

End App.

(* ================================================================== *)
(** ** The two callbacks as programs over the state of the module        *)
(* ================================================================== *)

Module Callback.

Import Datetime Pandas Numpy App.

(** What the running module holds: the table bound to the module-level name
    [df], and the arrays allocated so far, each at its address. *)
Record State : Type := mkState {
  global_df : DataFrame;
  heap : list ndarray
}.

(** A statement that runs against the state: it raises ([None]) or returns
    a value and the state it leaves. *)
Definition M (A : Type) : Type := State -> option (A * State).

Definition ret {A : Type} (a : A) : M A := fun s => Some (a, s).

Definition bind {A B : Type} (m : M A) (k : A -> M B) : M B :=
  fun s =>
    match m s with
    | Some (a, s') => k a s'
    | None => None
    end.

(** Evaluating the name [df]. *)
Definition read_df : M DataFrame := fun s => Some (global_df s, s).

(** [np.zeros((rows, cols))] allocates a new array and returns its
    address. *)
Definition np_zeros (rows cols : nat) : M nat :=
  fun s =>
    Some (List.length (heap s),
          {| global_df := global_df s;
             heap := heap s ++ [zeros rows cols] |}).

(** [z[ind_y][ind_x] += v] changes, in place, the array at address [z]. *)
Definition iadd_at (z ind_y ind_x : nat) (v : Z) : M unit :=
  fun s =>
    match nth_error (heap s) z with
    | None => None
    | Some array =>
        match iadd array ind_y ind_x v with
        | None => None
        | Some array' =>
            match setitem (heap s) z array' with
            | None => None
            | Some heap' =>
                Some (tt, {| global_df := global_df s; heap := heap' |})
            end
        end
    end.

(** A [for] loop of statements. *)
Fixpoint for_m {A : Type} (body : A -> M unit) (l : list A) : M unit :=
  match l with
  | [] => ret tt
  | a :: rest => bind (body a) (fun _ => for_m body rest)
  end.

(** A list comprehension whose elements are computed by statements. *)
Fixpoint map_m {A B : Type} (f : A -> M B) (l : list A) : M (list B) :=
  match l with
  | [] => ret []
  | a :: rest =>
      bind (f a) (fun b => bind (map_m f rest) (fun bs => ret (b :: bs)))
  end.

(** The returned figure holds the array [z] by reference. *)
Record FigureRef : Type := mkFigureRef {
  ref_x : list string;
  ref_y : list string;
  ref_z : nat
}.

(** [generate_patient_volume_heatmap], statement by statement: [z] is
    allocated by the call, [df] is evaluated once in every iteration over
    the clinics, and the cells of [z] are changed in place. *)
Definition run_generate_patient_volume_heatmap (start end_ : Z)
    (clinics admit_type : list string) : M FigureRef :=
  let y_axis := day_list in
  bind (np_zeros 7 24) (fun z =>
  bind (for_m (fun clinic =>
          bind read_df (fun df =>
          let filtered_df := filtered_frame df start end_ clinic admit_type in
          for_m (fun '(ind_y, day) =>
            for_m (fun '(ind_x, x_val) =>
              iadd_at z ind_y ind_x (sum_of_record filtered_df day x_val))
              (enumerate x_axis))
            (enumerate y_axis)))
          clinics) (fun _ =>
  ret {| ref_x := x_axis; ref_y := y_axis; ref_z := z |})).

Definition run_update_heatmap (start end_ : Z) (clinics admit_type : list string)
  : M FigureRef :=
  let start := midnight start in
  let end_ := midnight end_ in
  run_generate_patient_volume_heatmap start end_ clinics admit_type.

(** [update_patient_volume_table]: [df] is evaluated for every clinic of
    the selection. *)
Definition run_update_patient_volume_table (clinics admit_type : list string)
  : M (list (string * Z)) :=
  match clinics with
  | [] => ret []
  | _ :: _ =>
      map_m (fun clinic =>
               bind read_df (fun df =>
               ret (clinic,
                    sum (map Number_of_Records
                           (loc_mask (clinic_mask clinic admit_type) df)))))
            clinics
  end.

(** The figure a reference stands for in a state. *)
Definition deref (s : State) (fig : FigureRef) : option Figure :=
  match nth_error (heap s) (ref_z fig) with
  | Some z => Some {| fig_x := ref_x fig; fig_y := ref_y fig; fig_z := z |}
  | None => None
  end.

End Callback.

(* ================================================================== *)
(** ** Vocabulary of the statements                                      *)
(* ================================================================== *)

Module Spec.

Import Datetime Pandas Numpy App.

Import Float64.

(** The array whose cell [(i, j)] is [f i j]. *)
Definition build (rows cols : nat) (f : nat -> nat -> float64) : ndarray :=
  map (fun i => map (fun j => f i j) (seq 0 cols)) (seq 0 rows).

(** The array of finite cells whose cell [(i, j)] holds the integer
    [f i j]. *)
Definition build_exact (rows cols : nat) (f : nat -> nat -> Z) : ndarray :=
  build rows cols (fun i j => Finite (f i j)).

(** The row's check-in time lies between the two bounds of the slice. *)
Definition in_dates (start end_ : Z) (r : Row) : bool :=
  (slice_bound_left start <=? Check_In_Time r)
  && (Check_In_Time r <=? slice_bound_right end_).

(** The records a selection matches: clinic among the selected ones, admit
    source among the selected ones, check-in time within the bounds.  Each
    record of the table appears at most once. *)
Definition matched (df : DataFrame) (start end_ : Z)
    (clinics admit_type : list string) : DataFrame :=
  filter (fun r => isin (Clinic_Name r) clinics
                   && isin (Admit_Source r) admit_type
                   && in_dates start end_ r) df.

(** The row's hour label is one of the columns. *)
Definition in_columns (r : Row) : bool := isin (Check_In_Hour r) x_axis.

(** The sum in [Z] of the counts one clinic has in the cell of weekday
    [day] and hour label [x_val]. *)
Definition clinic_cell (df : DataFrame) (start end_ : Z)
    (admit_type : list string) (day x_val clinic : string) : Z :=
  exact_sum (map Number_of_Records
         (filter (fun r => clinic_mask clinic admit_type r
                           && in_dates start end_ r
                           && String.eqb (Days_of_Wk r) day
                           && String.eqb (Check_In_Hour r) x_val) df)).

(** One iteration over the clinics, seen from one cell: the int64 sum of the
    clinic is converted and added to the cell. *)
Definition accumulate (df : DataFrame) (start end_ : Z)
    (admit_type : list string) (day x_val : string) (acc : float64)
    (clinic : string) : float64 :=
  Float64.add acc
    (of_int64 (Int64.wrap (clinic_cell df start end_ admit_type day x_val clinic))).

(** The float64 in cell [(i, j)]: the clinics of the selection accumulated
    in order from 0.0; 0.0 in the columns that carry no hour label. *)
Definition float_cell (df : DataFrame) (start end_ : Z)
    (clinics admit_type : list string) (i j : nat) : float64 :=
  match nth_error day_list i, nth_error x_axis j with
  | Some day, Some x_val =>
      fold_left (accumulate df start end_ admit_type day x_val) clinics (Finite 0)
  | _, _ => Finite 0
  end.

(** The sum in [Z] cell [(i, j)] stands for: over the selected clinics, one
    term per entry of the selection, the counts each has in the cell; 0 in
    the columns that carry no hour label. *)
Definition heatmap_cell (df : DataFrame) (start end_ : Z)
    (clinics admit_type : list string) (i j : nat) : Z :=
  match nth_error day_list i, nth_error x_axis j with
  | Some day, Some x_val =>
      exact_sum (map (clinic_cell df start end_ admit_type day x_val) clinics)
  | _, _ => 0
  end.

(** The total of one clinic in [Z]: every record of the table counts,
    whatever its date, when it belongs to the clinic and its admit source
    is selected. *)
Definition clinic_total (df : DataFrame) (admit_type : list string)
    (clinic : string) : Z :=
  exact_sum (map (fun r => if String.eqb (Clinic_Name r) clinic
                        && isin (Admit_Source r) admit_type
                     then Number_of_Records r else 0) df).

(** How many times the clinic of the record appears in the selection. *)
Definition occurrences (clinics : list string) (r : Row) : Z :=
  Z.of_nat (count_occ string_dec clinics (Clinic_Name r)).

(** The cell of weekday [day] and hour label [x_val], record by record: each
    record of the cell with a selected admit source and a date within the
    bounds counts once per occurrence of its clinic in the selection. *)
Definition weighted_cell (df : DataFrame) (start end_ : Z)
    (clinics admit_type : list string) (day x_val : string) : Z :=
  exact_sum (map (fun r => if isin (Admit_Source r) admit_type
                        && in_dates start end_ r
                        && String.eqb (Days_of_Wk r) day
                        && String.eqb (Check_In_Hour r) x_val
                     then occurrences clinics r * Number_of_Records r
                     else 0) df).

(** Cell [(i, j)] record by record; 0 in the columns without hour label. *)
Definition weighted_heatmap_cell (df : DataFrame) (start end_ : Z)
    (clinics admit_type : list string) (i j : nat) : Z :=
  match nth_error day_list i, nth_error x_axis j with
  | Some day, Some x_val =>
      weighted_cell df start end_ clinics admit_type day x_val
  | _, _ => 0
  end.

(** A loop body that succeeds on every array of the given shape and turns
    the content [x] of cell [(i, j)] into [upd i j x]. *)
Definition updates (rows cols : nat) (body : ndarray -> option ndarray)
    (upd : nat -> nat -> float64 -> float64) : Prop :=
  forall f, body (build rows cols f)
            = Some (build rows cols (fun i j => upd i j (f i j))).

(** The sum of the magnitudes of all counts of the table: no sum of counts
    of the table exceeds it. *)
Definition magnitude (df : DataFrame) : Z :=
  exact_sum (map (fun r => Z.abs (Number_of_Records r)) df).

(** No int64 sum of counts of the table can wrap around. *)
Definition fits_int64 (df : DataFrame) : Prop := magnitude df < 2 ^ 63.

(** No cell can leave the range where float64 holds every integer, however
    the counts fall into cells: each entry of the selection adds at most
    the magnitude of the table. *)
Definition fits_float64 (df : DataFrame) (clinics : list string) : Prop :=
  Z.of_nat (List.length clinics) * magnitude df <= 2 ^ 53.

(** The first and the last timestamp of [datetime64[ns]]. *)
Definition TIMESTAMP_MIN : Z := - 2 ^ 63 + 1.
Definition TIMESTAMP_MAX : Z := 2 ^ 63 - 1.

(** Both bounds of the slice label are timestamps of [datetime64[ns]]. *)
Definition label_in_range (label : Z) : Prop :=
  TIMESTAMP_MIN <= slice_bound_left label
  /\ slice_bound_right label <= TIMESTAMP_MAX.

(** Ascending check-in times. *)
Definition le_time (a b : Row) : Prop := Check_In_Time a <= Check_In_Time b.

(** All counts are non-negative. *)
Definition counts_nonneg (csv : list CsvRow) : Prop :=
  Forall (fun r => 0 <= csv_number_of_records r) csv.

End Spec.

(* ================================================================== *)
(** ** Sample tables                                                     *)
(* ================================================================== *)

Module Examples.

Import Datetime Pandas Numpy App.

Local Open Scope string_scope.

(** Monday 2 May 2022 and the day after. *)
Definition monday : Z := date 2022 5 2.
Definition tuesday : Z := date 2022 5 3.

(** Two records of clinic A, admit source X, on that Monday: 08:15 with count
    3 and 08:45 with count 2. *)
Definition csv_two_records : list CsvRow :=
  [ mkCsvRow "A" (Some "X") (epoch_seconds 2022 5 2 8 15 0) 3;
    mkCsvRow "A" (Some "X") (epoch_seconds 2022 5 2 8 45 0) 2 ].

(** One record at 00:00:00 of the Tuesday. *)
Definition csv_at_midnight : list CsvRow :=
  [ mkCsvRow "A" (Some "X") (epoch_seconds 2022 5 3 0 0 0) 4 ].

(** The row of [df] loaded from that record. *)
Definition row_at_midnight : Row :=
  load_row (mkCsvRow "A" (Some "X") (epoch_seconds 2022 5 3 0 0 0) 4).

(** One record at 23:59:59 of the Monday, one second before. *)
Definition csv_before_midnight : list CsvRow :=
  [ mkCsvRow "A" (Some "X") (epoch_seconds 2022 5 2 23 59 59) 4 ].

(** One record on the Monday at 08:15 with count 3. *)
Definition csv_one_record : list CsvRow :=
  [ mkCsvRow "A" (Some "X") (epoch_seconds 2022 5 2 8 15 0) 3 ].

(** One record on the Monday at 06:00, before the first column, with count
    0. *)
Definition csv_early_zero : list CsvRow :=
  [ mkCsvRow "A" (Some "X") (epoch_seconds 2022 5 2 6 0 0) 0 ].


(** Three clinics with one record each, all on the Monday at 08:15, with
    counts 2^53, 1 and 1. *)
Definition csv_beyond_exact : list CsvRow :=
  [ mkCsvRow "A" (Some "X") (epoch_seconds 2022 5 2 8 15 0) (2 ^ 53);
    mkCsvRow "B" (Some "X") (epoch_seconds 2022 5 2 8 15 0) 1;
    mkCsvRow "C" (Some "X") (epoch_seconds 2022 5 2 8 15 0) 1 ].

(** Two records of clinic A with count 2^62 each. *)
Definition csv_beyond_int64 : list CsvRow :=
  [ mkCsvRow "A" (Some "X") (epoch_seconds 2022 5 2 8 15 0) (2 ^ 62);
    mkCsvRow "A" (Some "X") (epoch_seconds 2022 5 2 8 45 0) (2 ^ 62) ].

(** The array with 5 in cell (Monday, 08 AM) and 0 elsewhere. *)
Definition z_five_monday_8am : ndarray :=
  (Float64.Finite 0 :: Float64.Finite 5 :: repeat (Float64.Finite 0) 22)
  :: repeat (repeat (Float64.Finite 0) 24) 6.

End Examples.

(* ================================================================== *)
(** ** The control card and the lists behind its dropdowns               *)
(* ================================================================== *)

Module Controls.

Import Datetime Pandas App.

(** [series.unique()] keeps a table of the values met so far and returns
    each value where it first appears. *)
Fixpoint unique_from (seen values : list string) : list string :=
  match values with
  | [] => []
  | v :: rest =>
      if isin v seen then unique_from seen rest
      else v :: unique_from (v :: seen) rest
  end.

Definition unique (values : list string) : list string :=
  unique_from [] values.

(** [clinic_list = df["Clinic Name"].unique()]. *)
Definition clinic_list (df : DataFrame) : list string :=
  unique (map Clinic_Name df).

(** [admit_list = df["Admit Source"].unique().tolist()], computed after the
    missing values have been filled. *)
Definition admit_list (df : DataFrame) : list string :=
  unique (map Admit_Source df).

(** [{"label": i, "value": i}]. *)
Record DropdownOption : Type := mkDropdownOption {
  opt_label : string;
  opt_value : string
}.

Record Dropdown : Type := mkDropdown {
  dd_id : string;
  dd_options : list DropdownOption;
  dd_value : list string;
  dd_multi : bool
}.

Record DatePickerRange : Type := mkDatePickerRange {
  dp_id : string;
  dp_start_date : Z;
  dp_end_date : Z;
  dp_min_date_allowed : Z;
  dp_max_date_allowed : Z;
  dp_initial_visible_month : Z
}.

(** The three controls of the card; the paragraphs and line breaks between
    them carry no data. *)
Record ControlCard : Type := mkControlCard {
  clinic_select : Dropdown;
  date_picker_select : DatePickerRange;
  admit_select : Dropdown
}.

(** [generate_control_card()]: [clinic_list[0]] is an [IndexError] on an
    empty list. *)
Definition generate_control_card (df : DataFrame) : option ControlCard :=
  match nth_error (clinic_list df) 0 with
  | None => None
  | Some first =>
      Some {|
        clinic_select :=
          {| dd_id := "clinic-select";
             dd_options := map (fun i => mkDropdownOption i i) (clinic_list df);
             dd_value := [first];
             dd_multi := true |};
        date_picker_select :=
          {| dp_id := "date-picker-select";
             dp_start_date := date 2022 4 27;
             dp_end_date := date 2023 9 13;
             dp_min_date_allowed := date 2022 4 27;
             dp_max_date_allowed := date 2023 9 13;
             dp_initial_visible_month := date 2022 4 27 |};
        admit_select :=
          {| dd_id := "admit-select";
             dd_options := map (fun i => mkDropdownOption i i) (admit_list df);
             dd_value := [];
             dd_multi := true |}
      |}
  end.

End Controls.

(* ================================================================== *)
(** ** Further vocabulary: hours, days and shifted tables                *)
(* ================================================================== *)

Module Derived.

Import Datetime Pandas Numpy App.

(** The label [strftime_I_p] gives to a time whose hour is [h]. *)
Definition hour_label (h : Z) : string :=
  let h12 := if h mod 12 =? 0 then 12 else h mod 12 in
  let suffix := if h <? 12 then "AM"%string else "PM"%string in
  (two_digits h12 ++ " " ++ suffix)%string.

(** The check-in of the record falls on a day from [start] included to
    [end_] excluded. *)
Definition csv_between_days (start end_ : Z) (c : CsvRow) : bool :=
  (start * SECONDS_PER_DAY <=? csv_check_in_time c)
  && (csv_check_in_time c <? end_ * SECONDS_PER_DAY).

(** The same record checked in [n] days later. *)
Definition shift_days (n : Z) (c : CsvRow) : CsvRow :=
  {| csv_clinic_name := csv_clinic_name c;
     csv_admit_source := csv_admit_source c;
     csv_check_in_time := csv_check_in_time c + n * SECONDS_PER_DAY;
     csv_number_of_records := csv_number_of_records c |}.

(** Cell [(i, j)] of a loaded table by weekday number and hour, in [Z]: a
    record counts when its admit source is selected, its time lies within
    the bounds, its weekday is [i] (Monday is 0) and its hour is
    [7 + j]. *)
Definition bucket_cell (csv : list CsvRow) (start end_ : Z)
    (clinics admit_type : list string) (i j : nat) : Z :=
  Pandas.exact_sum
    (map (fun r => if isin (Admit_Source r) admit_type
                      && Spec.in_dates start end_ r
                      && (weekday (Check_In_Time r) =? Z.of_nat i)
                      && (hour (Check_In_Time r) =? 7 + Z.of_nat j)
                   then Spec.occurrences clinics r * Number_of_Records r
                   else 0) (load csv)).

(** The hour of day of the check-in of the record. *)
Definition csv_hour (c : CsvRow) : Z := (csv_check_in_time c / 3600) mod 24.

(** The record was checked in from 07:00:00 to 18:59:59. *)
Definition visible_hour (c : CsvRow) : bool :=
  (7 <=? csv_hour c) && (csv_hour c <=? 18).

(** The record was checked in at 00:00:00 of the day [end_] or one second
    before. *)
Definition at_end_boundary (end_ : Z) (c : CsvRow) : bool :=
  (csv_check_in_time c =? end_ * SECONDS_PER_DAY)
  || (csv_check_in_time c =? end_ * SECONDS_PER_DAY - 1).

(** Every hour from 0 to 23 satisfies the test. *)
Definition all_hours (test : Z -> bool) : bool := forallb test (range 0 24).

(** Every weekday number from 0 to 6 satisfies the test. *)
Definition all_weekdays (test : Z -> bool) : bool := forallb test (range 0 7).

End Derived.

Module MoreExamples.

Import Datetime Pandas Numpy App.

Local Open Scope string_scope.

(** Records of two clinics and two admit sources, one without admit source,
    around the first week of May 2022. *)
Definition csv_week : list CsvRow :=
  [ mkCsvRow "A" (Some "X") (epoch_seconds 2022 5 2 8 15 0) 3;
    mkCsvRow "B" (Some "Y") (epoch_seconds 2022 5 3 9 30 0) 7;
    mkCsvRow "A" None (epoch_seconds 2022 5 4 18 59 59) 2;
    mkCsvRow "B" (Some "X") (epoch_seconds 2022 5 5 6 0 0) 1;
    mkCsvRow "A" (Some "Y") (epoch_seconds 2022 5 6 0 0 0) 4 ].

End MoreExamples.

(* ================================================================== *)
(** ** Sums over lists                                                   *)
(* ================================================================== *)

Import Datetime Int64 Float64 Pandas Numpy App Spec.

Section Sums.

Context {A : Type}.


Lemma sum_map_ext (f g : A -> Z) (l : list A) :
  (forall a, In a l -> f a = g a) -> exact_sum (map f l) = exact_sum (map g l).
Proof.
  induction l as [|a l IH]; intros H; simpl; [reflexivity|].
  rewrite (H a (or_introl eq_refl)), IH; [reflexivity|].
  intros b Hb. apply H. now right.
Qed.

Lemma sum_map_zero (l : list A) : exact_sum (map (fun _ => 0) l) = 0.
Proof. induction l as [|a l IH]; simpl; [reflexivity | now rewrite IH]. Qed.

Lemma sum_map_add (f g : A -> Z) (l : list A) :
  exact_sum (map (fun a => f a + g a) l) = exact_sum (map f l) + exact_sum (map g l).
Proof.
  induction l as [|a l IH]; simpl; [reflexivity|].
  rewrite IH. lia.
Qed.



Lemma sum_map_nonneg (f : A -> Z) (l : list A) :
  (forall a, In a l -> 0 <= f a) -> 0 <= exact_sum (map f l).
Proof.
  induction l as [|a l IH]; intros H; simpl; [lia|].
  assert (0 <= f a) by (apply H; now left).
  assert (0 <= exact_sum (map f l))
    by (apply IH; intros b Hb; apply H; now right).
  lia.
Qed.

Lemma sum_map_le (f g : A -> Z) (l : list A) :
  (forall a, In a l -> f a <= g a) -> exact_sum (map f l) <= exact_sum (map g l).
Proof.
  induction l as [|a l IH]; intros H; simpl; [lia|].
  assert (f a <= g a) by (apply H; now left).
  assert (exact_sum (map f l) <= exact_sum (map g l))
    by (apply IH; intros b Hb; apply H; now right).
  lia.
Qed.

(** With [f <= g] pointwise, the sums agree only if [f] and [g] agree on
    every element. *)
Lemma sum_map_le_eq (f g : A -> Z) (l : list A) :
  (forall a, In a l -> f a <= g a) ->
  exact_sum (map f l) = exact_sum (map g l) ->
  forall a, In a l -> f a = g a.
Proof.
  induction l as [|b l IH]; intros Hle Heq a Ha; [destruct Ha|].
  simpl in Heq.
  assert (f b <= g b) by (apply Hle; now left).
  assert (exact_sum (map f l) <= exact_sum (map g l))
    by (apply sum_map_le; intros c Hc; apply Hle; now right).
  destruct Ha as [<-|Ha]; [lia|].
  apply IH; trivial; [|lia].
  intros c Hc. apply Hle. now right.
Qed.

Lemma sum_map_filter (p : A -> bool) (f : A -> Z) (l : list A) :
  exact_sum (map f (filter p l)) = exact_sum (map (fun a => if p a then f a else 0) l).
Proof.
  induction l as [|a l IH]; simpl; [reflexivity|].
  destruct (p a); simpl; rewrite IH; reflexivity.
Qed.

Lemma sum_map_perm (f : A -> Z) (l l' : list A) :
  Permutation l l' -> exact_sum (map f l) = exact_sum (map f l').
Proof.
  induction 1; simpl; lia.
Qed.

End Sums.

Lemma sum_map_exchange {A B : Type} (f : A -> B -> Z) (la : list A)
    (lb : list B) :
  exact_sum (map (fun a => exact_sum (map (fun b => f a b) lb)) la)
  = exact_sum (map (fun b => exact_sum (map (fun a => f a b) la)) lb).
Proof.
  induction la as [|a la IH]; simpl.
  - now rewrite sum_map_zero.
  - rewrite IH, <- sum_map_add. reflexivity.
Qed.

(** The sum of an indicator over a list of labels counts the occurrences of
    the label. *)
Lemma sum_indicator (k : string) (v : Z) (l : list string) :
  exact_sum (map (fun a => if String.eqb k a then v else 0) l)
  = Z.of_nat (count_occ string_dec l k) * v.
Proof.
  induction l as [|a l IH]; simpl; [reflexivity|].
  rewrite IH.
  destruct (String.eqb_spec k a) as [->|Hne].
  - destruct (string_dec a a) as [_|C]; [lia | now destruct C].
  - destruct (string_dec a k) as [E|_]; [now destruct Hne | lia].
Qed.

Lemma isin_In (v : string) (values : list string) :
  isin v values = true <-> In v values.
Proof.
  unfold isin. rewrite existsb_exists. split.
  - intros [a [Ha E]]. apply String.eqb_eq in E. now subst.
  - intros H. exists v. split; [assumption | apply String.eqb_refl].
Qed.

Lemma isin_count_occ (v : string) (values : list string) :
  isin v values = negb (Nat.eqb (count_occ string_dec values v) 0).
Proof.
  destruct (isin v values) eqn:E.
  - apply isin_In in E. apply (count_occ_In string_dec) in E.
    destruct (count_occ string_dec values v); [lia | reflexivity].
  - destruct (count_occ string_dec values v) eqn:C; [reflexivity|].
    assert (In v values) by (apply (count_occ_In string_dec); lia).
    apply isin_In in H. congruence.
Qed.

Lemma NoDup_count_occ_isin (v : string) (values : list string) :
  NoDup values ->
  Z.of_nat (count_occ string_dec values v) = if isin v values then 1 else 0.
Proof.
  intros ND. rewrite isin_count_occ.
  pose proof (proj1 (NoDup_count_occ string_dec values) ND v) as Hle.
  destruct (count_occ string_dec values v) as [|[|n]]; simpl; lia.
Qed.

(* ================================================================== *)
(** ** int64 sums and float64 additions within their exact range         *)
(* ================================================================== *)

Section MachineNumbers.

Lemma wrap_small (x : Z) : - 2 ^ 63 <= x < 2 ^ 63 -> Int64.wrap x = x.
Proof.
  intros H. unfold Int64.wrap.
  rewrite Z.mod_small; lia.
Qed.

Lemma wrap_add_wrap (a b : Z) :
  Int64.wrap (a + Int64.wrap b) = Int64.wrap (a + b).
Proof.
  unfold Int64.wrap. f_equal.
  replace (a + ((b + 2 ^ 63) mod 2 ^ 64 - 2 ^ 63) + 2 ^ 63)
    with (a + (b + 2 ^ 63) mod 2 ^ 64) by lia.
  rewrite Z.add_mod_idemp_r by lia. f_equal. lia.
Qed.

(** The int64 sum is the sum in [Z], wrapped once. *)
Lemma sum_wrap (values : list Z) : sum values = Int64.wrap (exact_sum values).
Proof.
  induction values as [|v values IH]; [reflexivity|].
  cbn [sum exact_sum fold_right]. fold (sum values). fold (exact_sum values).
  rewrite IH. unfold Int64.add. apply wrap_add_wrap.
Qed.

Lemma round_small (x : Z) : Z.abs x <= 2 ^ 53 -> round x = Finite x.
Proof.
  intros H. unfold round.
  destruct (Z.leb_spec (Z.abs x) (2 ^ 53)); [reflexivity | lia].
Qed.

Lemma add_zero_zero : Float64.add (Finite 0) (of_int64 (Int64.wrap 0)) = Finite 0.
Proof. reflexivity. Qed.

(** An addition whose operand and result stay within 2^53 is exact. *)
Lemma add_exact (a v : Z) :
  Z.abs v <= 2 ^ 53 -> Z.abs (a + v) <= 2 ^ 53 ->
  Float64.add (Finite a) (of_int64 (Int64.wrap v)) = Finite (a + v).
Proof.
  intros Hv Hs.
  rewrite wrap_small by lia.
  unfold of_int64. rewrite (round_small v Hv).
  cbn [Float64.add]. now apply round_small.
Qed.

Lemma abs_exact_sum_le {A : Type} (f : A -> Z) (l : list A) :
  Z.abs (exact_sum (map f l)) <= exact_sum (map (fun a => Z.abs (f a)) l).
Proof.
  induction l as [|a l IH]; cbn [map exact_sum fold_right]; [lia|].
  fold (exact_sum (map f l)).
  fold (exact_sum (map (fun a => Z.abs (f a)) l)). lia.
Qed.

Lemma magnitude_nonneg (df : DataFrame) : 0 <= magnitude df.
Proof.
  unfold magnitude. apply sum_map_nonneg. intros r _. lia.
Qed.

(** No sum of counts over a part of the table exceeds the magnitude of the
    table. *)
Lemma abs_sum_filter_le (p : Row -> bool) (df : DataFrame) :
  Z.abs (exact_sum (map Number_of_Records (filter p df))) <= magnitude df.
Proof.
  rewrite sum_map_filter.
  eapply Z.le_trans; [apply abs_exact_sum_le|].
  unfold magnitude. apply sum_map_le. intros r _.
  destruct (p r); lia.
Qed.

Lemma abs_sum_if_le (p : Row -> bool) (df : DataFrame) :
  Z.abs (exact_sum (map (fun r => if p r then Number_of_Records r else 0) df))
  <= magnitude df.
Proof. rewrite <- sum_map_filter. apply abs_sum_filter_le. Qed.

End MachineNumbers.
(* ================================================================== *)
(** ** Sorting by check-in time and slicing by labels                    *)
(* ================================================================== *)

Section Slicing.

Lemma insert_by_time_perm (r : Row) (l : DataFrame) :
  Permutation (insert_by_time r l) (r :: l).
Proof.
  induction l as [|r' l IH]; simpl; [reflexivity|].
  destruct (Check_In_Time r <=? Check_In_Time r'); [reflexivity|].
  rewrite IH. apply perm_swap.
Qed.

Lemma sort_values_perm (df : DataFrame) : Permutation (sort_values df) df.
Proof.
  induction df as [|r df IH]; simpl; [reflexivity|].
  rewrite insert_by_time_perm. now constructor.
Qed.

Lemma insert_by_time_sorted (r : Row) (l : DataFrame) :
  Sorted le_time l -> Sorted le_time (insert_by_time r l).
Proof.
  induction l as [|r' l IH]; intros Hs; simpl.
  - repeat constructor.
  - destruct (Z.leb_spec (Check_In_Time r) (Check_In_Time r')) as [Hle|Hgt].
    + constructor; [assumption | constructor; exact Hle].
    + inversion Hs as [|? ? Hs' Hhd]; subst.
      constructor; [now apply IH|].
      destruct l as [|r'' l]; simpl.
      * constructor. unfold le_time. lia.
      * destruct (Check_In_Time r <=? Check_In_Time r'').
        -- constructor. unfold le_time. lia.
        -- constructor. now inversion Hhd.
Qed.

Lemma sort_values_sorted (df : DataFrame) : Sorted le_time (sort_values df).
Proof.
  induction df as [|r df IH]; simpl; [constructor|].
  now apply insert_by_time_sorted.
Qed.

Lemma sort_values_strongly_sorted (df : DataFrame) :
  StronglySorted le_time (sort_values df).
Proof.
  apply Sorted_StronglySorted; [|apply sort_values_sorted].
  intros a b c. unfold le_time. lia.
Qed.

(** Nothing is kept from rows that all lie after the right bound. *)
Lemma filter_in_dates_after (start end_ : Z) (l : DataFrame) :
  Forall (fun r => slice_bound_right end_ < Check_In_Time r) l ->
  filter (in_dates start end_) l = [].
Proof.
  induction 1 as [|r l Hr _ IH]; simpl; [reflexivity|].
  unfold in_dates at 1.
  destruct (Z.leb_spec (Check_In_Time r) (slice_bound_right end_)); [lia|].
  now rewrite andb_false_r.
Qed.

(** Past the left bound, the slice is the prefix found by the right
    bisection. *)
Lemma firstn_searchsorted_right (start end_ : Z) (l : DataFrame) :
  StronglySorted le_time l ->
  Forall (fun r => slice_bound_left start <= Check_In_Time r) l ->
  firstn (searchsorted_right (index l) (slice_bound_right end_)) l
  = filter (in_dates start end_) l.
Proof.
  induction 1 as [|r l Hs IH Hall]; intros Hge; simpl; [reflexivity|].
  inversion Hge as [|? ? Hr Hge']; subst.
  unfold in_dates at 1.
  destruct (Z.leb_spec (slice_bound_left start) (Check_In_Time r)); [|lia].
  destruct (Z.leb_spec (Check_In_Time r) (slice_bound_right end_)) as [Hle|Hgt];
    simpl.
  - f_equal. now apply IH.
  - symmetry. apply filter_in_dates_after.
    eapply Forall_impl; [|exact Hall].
    intros r' Hr'. unfold le_time in Hr'. lia.
Qed.

(** On a frame sorted by check-in time, slicing by two labels keeps exactly
    the rows whose time lies between the bounds, both ends included. *)
Lemma slice_sorted (start end_ : Z) (l : DataFrame) :
  StronglySorted le_time l ->
  slice l start end_ = filter (in_dates start end_) l.
Proof.
  unfold slice, iloc.
  induction 1 as [|r l Hs IH Hall]; simpl; [reflexivity|].
  assert (Hafter : slice_bound_right end_ < Check_In_Time r ->
                   filter (in_dates start end_) l = []).
  { intros Hgt. apply filter_in_dates_after.
    eapply Forall_impl; [|exact Hall].
    intros r' Hr'. unfold le_time in Hr'. lia. }
  unfold in_dates at 1.
  destruct (Z.ltb_spec (Check_In_Time r) (slice_bound_left start)) as [Hlt|Hge].
  - destruct (Z.leb_spec (slice_bound_left start) (Check_In_Time r)); [lia|].
    simpl.
    destruct (Z.leb_spec (Check_In_Time r) (slice_bound_right end_)) as [Hle|Hgt].
    + exact IH.
    + simpl. symmetry. now apply Hafter.
  - destruct (Z.leb_spec (slice_bound_left start) (Check_In_Time r)); [|lia].
    destruct (Z.leb_spec (Check_In_Time r) (slice_bound_right end_)) as [Hle|Hgt];
      simpl.
    + f_equal. apply firstn_searchsorted_right; [assumption|].
      eapply Forall_impl; [|exact Hall].
      intros r' Hr'. unfold le_time in Hr'. lia.
    + symmetry. now apply Hafter.
Qed.

Lemma filter_filter {A : Type} (p q : A -> bool) (l : list A) :
  filter p (filter q l) = filter (fun a => q a && p a) l.
Proof.
  induction l as [|a l IH]; simpl; [reflexivity|].
  destruct (q a); simpl; [destruct (p a)|]; now rewrite IH.
Qed.

Lemma filter_perm {A : Type} (p : A -> bool) (l l' : list A) :
  Permutation l l' -> Permutation (filter p l) (filter p l').
Proof.
  induction 1 as [|a l l' _ IH|a b l|l l' l'' _ IH1 _ IH2]; simpl.
  - constructor.
  - destruct (p a); [now constructor | assumption].
  - destruct (p a), (p b); try reflexivity. apply perm_swap.
  - now transitivity (filter p l').
Qed.

(** The frame one clinic contributes holds the rows of the table that pass
    the mask and the dates. *)
Lemma filtered_frame_perm df start end_ clinic admit_type :
  Permutation
    (filtered_frame df start end_ clinic admit_type)
    (filter (fun r => clinic_mask clinic admit_type r && in_dates start end_ r) df).
Proof.
  unfold filtered_frame, loc_mask.
  rewrite slice_sorted by apply sort_values_strongly_sorted.
  rewrite <- filter_filter.
  apply filter_perm, sort_values_perm.
Qed.

End Slicing.

Lemma sum_of_record_frame df start end_ clinic admit_type day x_val :
  sum_of_record (filtered_frame df start end_ clinic admit_type) day x_val
  = Int64.wrap (clinic_cell df start end_ admit_type day x_val clinic).
Proof.
  unfold sum_of_record, clinic_cell, loc_mask.
  rewrite sum_wrap. f_equal.
  rewrite filter_filter.
  rewrite (sum_map_perm _ _ _
             (filter_perm _ _ _ (filtered_frame_perm df start end_ clinic admit_type))).
  rewrite filter_filter.
  f_equal. f_equal. apply filter_ext. intros r.
  now rewrite andb_assoc.
Qed.

(** The count sum of a clinic in a cell, record by record. *)
Lemma clinic_cell_records df start end_ admit_type day x_val clinic :
  clinic_cell df start end_ admit_type day x_val clinic
  = exact_sum (map (fun r => if clinic_mask clinic admit_type r
                                && in_dates start end_ r
                                && String.eqb (Days_of_Wk r) day
                                && String.eqb (Check_In_Hour r) x_val
                             then Number_of_Records r else 0) df).
Proof. unfold clinic_cell. apply sum_map_filter. Qed.

(* ================================================================== *)
(** ** The array and the loops that fill it                              *)
(* ================================================================== *)

Section Arrays.

Lemma repeat_map_seq {A : Type} (a : A) (n s : nat) :
  repeat a n = map (fun _ => a) (seq s n).
Proof.
  revert s. induction n as [|n IH]; intros s; simpl; [reflexivity|].
  now rewrite (IH (S s)).
Qed.

Lemma zeros_build (rows cols : nat) :
  zeros rows cols = build rows cols (fun _ _ => Finite 0).
Proof.
  unfold zeros, build.
  rewrite (repeat_map_seq (repeat (Finite 0) cols) rows 0).
  now rewrite (repeat_map_seq (Finite 0) cols 0).
Qed.

Lemma build_ext (rows cols : nat) (f g : nat -> nat -> float64) :
  (forall i j, (i < rows)%nat -> (j < cols)%nat -> f i j = g i j) ->
  build rows cols f = build rows cols g.
Proof.
  intros H. unfold build.
  apply map_ext_in. intros i Hi. apply in_seq in Hi.
  apply map_ext_in. intros j Hj. apply in_seq in Hj.
  apply H; lia.
Qed.

Lemma build_shape (rows cols : nat) (f : nat -> nat -> float64) :
  has_shape (build rows cols f) rows cols.
Proof.
  unfold has_shape, build. split.
  - now rewrite length_map, length_seq.
  - apply Forall_forall. intros row Hrow.
    apply in_map_iff in Hrow. destruct Hrow as [i [<- _]].
    now rewrite length_map, length_seq.
Qed.

Lemma build_cell (rows cols : nat) (f : nat -> nat -> float64) (i j : nat) :
  (i < rows)%nat -> (j < cols)%nat -> cell (build rows cols f) i j = f i j.
Proof.
  intros Hi Hj. unfold cell, build.
  rewrite (nth_indep _ [] (map (fun j => f 0%nat j) (seq 0 cols)))
    by now rewrite length_map, length_seq.
  rewrite (map_nth (fun i => map (fun j => f i j) (seq 0 cols)) (seq 0 rows) 0%nat i).
  rewrite seq_nth by assumption. simpl.
  rewrite (nth_indep _ (Finite 0) (f i 0%nat))
    by now rewrite length_map, length_seq.
  rewrite (map_nth (fun j => f i j) (seq 0 cols) 0%nat j).
  now rewrite seq_nth.
Qed.

Lemma cell_build (rows cols : nat) (f : nat -> nat -> float64) (i j : nat) :
  cell (build rows cols f) i j
  = if Nat.ltb i rows && Nat.ltb j cols then f i j else Finite 0.
Proof.
  destruct (Nat.ltb_spec i rows) as [Hi|Hi]; simpl.
  - destruct (Nat.ltb_spec j cols) as [Hj|Hj].
    + now apply build_cell.
    + unfold cell. apply nth_overflow.
      destruct (build_shape rows cols f) as [_ Hrows].
      rewrite Forall_forall in Hrows.
      destruct (nth_in_or_default i (build rows cols f) []) as [Hin|E].
      * now rewrite (Hrows _ Hin).
      * rewrite E. simpl. lia.
  - unfold cell. rewrite (nth_overflow _ []).
    + now destruct j.
    + destruct (build_shape rows cols f) as [Hlen _]. now rewrite Hlen.
Qed.

Lemma build_exact_total (rows cols : nat) (f : nat -> nat -> Z) :
  total (build_exact rows cols f)
  = exact_sum (map (fun i => exact_sum (map (fun j => f i j) (seq 0 cols)))
                   (seq 0 rows)).
Proof.
  unfold total, build_exact, build. rewrite map_map.
  apply sum_map_ext. intros i _. now rewrite map_map.
Qed.

Lemma nth_error_map_seq {A : Type} (g : nat -> A) (s n i : nat) :
  (i < n)%nat -> nth_error (map g (seq s n)) i = Some (g (s + i)%nat).
Proof.
  intros Hi. rewrite nth_error_map, nth_error_seq.
  destruct (Nat.ltb_spec i n); [reflexivity | lia].
Qed.

Lemma setitem_map_seq {A : Type} (g : nat -> A) (s n i : nat) (v : A) :
  (i < n)%nat ->
  setitem (map g (seq s n)) i v
  = Some (map (fun k => if Nat.eqb k (s + i) then v else g k) (seq s n)).
Proof.
  revert s i. induction n as [|n IH]; intros s i Hi; [lia|].
  destruct i as [|i]; simpl.
  - rewrite Nat.add_0_r, Nat.eqb_refl. do 2 f_equal.
    apply map_ext_in. intros k Hk. apply in_seq in Hk.
    destruct (Nat.eqb_spec k s); [lia | reflexivity].
  - rewrite (IH (S s) i) by lia.
    destruct (Nat.eqb_spec s (s + S i)); [lia|].
    do 2 f_equal. apply map_ext. intros k.
    now replace (S s + i)%nat with (s + S i)%nat by lia.
Qed.

(** An in-range [+=] succeeds and changes one cell. *)
Lemma iadd_build (rows cols : nat) (f : nat -> nat -> float64) (i j : nat)
    (v : Z) :
  (i < rows)%nat -> (j < cols)%nat ->
  iadd (build rows cols f) i j v
  = Some (build rows cols
            (fun i' j' => if Nat.eqb i' i && Nat.eqb j' j
                          then Float64.add (f i' j') (of_int64 v)
                          else f i' j')).
Proof.
  intros Hi Hj. unfold iadd, build.
  rewrite (nth_error_map_seq _ 0 rows i Hi).
  rewrite (nth_error_map_seq _ 0 cols j Hj).
  rewrite (setitem_map_seq _ 0 cols j _ Hj).
  rewrite (setitem_map_seq _ 0 rows i _ Hi).
  simpl. apply f_equal.
  apply map_ext_in. intros i' Hi'.
  destruct (Nat.eqb_spec i' i) as [->|Hne]; simpl.
  - apply map_ext_in. intros j' Hj'.
    now destruct (Nat.eqb_spec j' j) as [->|Hne'].
  - reflexivity.
Qed.

(** A loop over bodies that update, updates by each of them in turn. *)
Lemma for_each_updates {A : Type} (rows cols : nat)
    (body : A -> ndarray -> option ndarray)
    (upd : A -> nat -> nat -> float64 -> float64) (l : list A) :
  (forall a, In a l -> updates rows cols (body a) (upd a)) ->
  updates rows cols (for_each body l)
          (fun i j x => fold_left (fun acc a => upd a i j acc) l x).
Proof.
  induction l as [|a l IH]; intros H f; simpl.
  - reflexivity.
  - rewrite (H a (or_introl eq_refl) f).
    rewrite IH by (intros b Hb; apply H; now right).
    reflexivity.
Qed.

Lemma updates_ext (rows cols : nat) (body : ndarray -> option ndarray)
    (upd upd' : nat -> nat -> float64 -> float64) :
  (forall i j x, (i < rows)%nat -> (j < cols)%nat -> upd i j x = upd' i j x) ->
  updates rows cols body upd -> updates rows cols body upd'.
Proof.
  intros E H f. rewrite H. f_equal.
  apply build_ext. intros i j Hi Hj. now apply E.
Qed.

End Arrays.

Section HeatmapLoops.

Lemma iadd_updates (rows cols i j : nat) (v : Z) :
  (i < rows)%nat -> (j < cols)%nat ->
  updates rows cols (fun z => iadd z i j v)
          (fun i' j' x => if Nat.eqb i' i && Nat.eqb j' j
                          then Float64.add x (of_int64 v) else x).
Proof. intros Hi Hj f. now apply iadd_build. Qed.

Lemma in_enumerate_lt {A : Type} (l : list A) (k : nat) (a : A) :
  In (k, a) (enumerate l) -> (k < List.length l)%nat.
Proof.
  unfold enumerate. intros H. apply in_combine_l in H.
  apply in_seq in H. lia.
Qed.

Lemma fold_combine_seq_pick {A St : Type} (g : A -> St -> St) (l : list A)
    (s i : nat) (x : St) :
  fold_left (fun acc p => if Nat.eqb i (fst p) then g (snd p) acc else acc)
            (combine (seq s (List.length l)) l) x
  = if Nat.ltb i s then x
    else match nth_error l (i - s) with Some a => g a x | None => x end.
Proof.
  revert s x. induction l as [|a l IH]; intros s x; simpl.
  - destruct (Nat.ltb i s); [reflexivity|]. now destruct (i - s)%nat.
  - rewrite IH.
    destruct (Nat.eqb_spec i s) as [->|Hne].
    + rewrite Nat.sub_diag. simpl.
      destruct (Nat.ltb_spec s (S s)); [|lia].
      destruct (Nat.ltb_spec s s); [lia | reflexivity].
    + destruct (Nat.ltb_spec i (S s)), (Nat.ltb_spec i s); try lia;
        try reflexivity.
      replace (i - s)%nat with (S (i - S s)) by lia. reflexivity.
Qed.

(** Over [enumerate l], the updates at position [i] come down to the one of
    the [i]-th element. *)
Lemma fold_enumerate_pick {A St : Type} (g : A -> St -> St) (l : list A)
    (i : nat) (x : St) :
  fold_left (fun acc p => if Nat.eqb i (fst p) then g (snd p) acc else acc)
            (enumerate l) x
  = match nth_error l i with Some a => g a x | None => x end.
Proof.
  unfold enumerate. rewrite fold_combine_seq_pick. simpl.
  now rewrite Nat.sub_0_r.
Qed.

Lemma fold_left_id {A St : Type} (l : list A) (x : St) :
  fold_left (fun acc _ => acc) l x = x.
Proof. induction l as [|a l IH]; simpl; [reflexivity | exact IH]. Qed.

Lemma fold_left_ext_in {A St : Type} (f g : St -> A -> St) (l : list A)
    (x : St) :
  (forall acc a, In a l -> f acc a = g acc a) ->
  fold_left f l x = fold_left g l x.
Proof.
  revert x. induction l as [|a l IH]; intros x H; simpl; [reflexivity|].
  rewrite (H x a (or_introl eq_refl)). apply IH.
  intros acc b Hb. apply H. now right.
Qed.

Lemma x_axis_length : List.length x_axis = 12%nat.
Proof. reflexivity. Qed.

Lemma day_list_length : List.length day_list = 7%nat.
Proof. reflexivity. Qed.

(** What one iteration over the clinics does to cell [(i, j)]. *)
Lemma clinic_iteration_updates df start end_ clinic admit_type :
  updates 7 24
    (fun z =>
       let filtered_df := filtered_frame df start end_ clinic admit_type in
       for_each (fun '(ind_y, day) z =>
         for_each (fun '(ind_x, x_val) z =>
           iadd z ind_y ind_x (sum_of_record filtered_df day x_val))
           (enumerate x_axis) z)
         (enumerate day_list) z)
    (fun i j x =>
       match nth_error day_list i, nth_error x_axis j with
       | Some day, Some x_val =>
           accumulate df start end_ admit_type day x_val x clinic
       | _, _ => x
       end).
Proof.
  cbv zeta.
  set (F := filtered_frame df start end_ clinic admit_type).
  eapply updates_ext;
    [| apply for_each_updates with
         (upd := fun p i j x =>
            if Nat.eqb i (fst p)
            then match nth_error x_axis j with
                 | Some x_val =>
                     Float64.add x (of_int64 (sum_of_record F (snd p) x_val))
                 | None => x
                 end
            else x)].
  - intros i j x _ _. cbv beta.
    rewrite (fold_enumerate_pick
               (fun day acc => match nth_error x_axis j with
                               | Some x_val =>
                                   Float64.add acc
                                     (of_int64 (sum_of_record F day x_val))
                               | None => acc
                               end) day_list i x).
    destruct (nth_error day_list i) as [day|]; [|reflexivity].
    destruct (nth_error x_axis j) as [x_val|]; [|reflexivity].
    unfold accumulate, F. now rewrite sum_of_record_frame.
  - intros [ind_y day] Hy. apply in_enumerate_lt in Hy.
    rewrite day_list_length in Hy. simpl fst. simpl snd.
    eapply updates_ext;
      [| apply for_each_updates with
           (upd := fun q i j x =>
              if Nat.eqb i ind_y && Nat.eqb j (fst q)
              then Float64.add x (of_int64 (sum_of_record F day (snd q)))
              else x)].
    + intros i j x _ _. cbv beta.
      destruct (Nat.eqb i ind_y); simpl andb; cbv iota;
        [|apply fold_left_id].
      apply (fold_enumerate_pick
               (fun x_val acc =>
                  Float64.add acc (of_int64 (sum_of_record F day x_val)))).
    + intros [ind_x x_val] Hx. apply in_enumerate_lt in Hx.
      rewrite x_axis_length in Hx. simpl fst. simpl snd.
      apply iadd_updates; lia.
Qed.

(** The three nested loops succeed and leave [float_cell] in every cell of
    an array that started at zero. *)
Lemma heatmap_loops_update df start end_ clinics admit_type :
  for_each (fun clinic z =>
    let filtered_df := filtered_frame df start end_ clinic admit_type in
    for_each (fun '(ind_y, day) z =>
      for_each (fun '(ind_x, x_val) z =>
        iadd z ind_y ind_x (sum_of_record filtered_df day x_val))
        (enumerate x_axis) z)
      (enumerate day_list) z)
    clinics (zeros 7 24)
  = Some (build 7 24 (float_cell df start end_ clinics admit_type)).
Proof.
  rewrite zeros_build.
  rewrite (for_each_updates 7 24 _ _ clinics
             (fun clinic _ =>
                clinic_iteration_updates df start end_ clinic admit_type)).
  f_equal. apply build_ext. intros i j _ _. unfold float_cell.
  destruct (nth_error day_list i) as [day|]; [|apply fold_left_id].
  destruct (nth_error x_axis j) as [x_val|]; [|apply fold_left_id].
  reflexivity.
Qed.

(** The closed form of the heatmap: the call never fails, its axes are the
    fixed ones, and its array is 7 by 24 with [float_cell] in every cell. *)
Lemma heatmap_closed_form df start end_ clinics admit_type :
  generate_patient_volume_heatmap df start end_ clinics admit_type
  = Some {| fig_x := x_axis; fig_y := day_list;
            fig_z := build 7 24 (float_cell df start end_ clinics admit_type) |}.
Proof.
  pose proof (heatmap_loops_update df start end_ clinics admit_type) as H.
  unfold generate_patient_volume_heatmap.
  cbv zeta in H |- *. rewrite H.
  reflexivity.
Qed.

End HeatmapLoops.

(* ================================================================== *)
(** ** Cells: equal runs, zero runs, and the exact range                 *)
(* ================================================================== *)

Section Cells.

(** Two selections of the same clinics whose count sums agree clinic by
    clinic on every column label put the same float64 in every cell. *)
Lemma float_cell_ext df df' start end_ start' end_' clinics admit_type
    admit_type' :
  (forall clinic day x_val, In clinic clinics -> In x_val x_axis ->
     clinic_cell df start end_ admit_type day x_val clinic
     = clinic_cell df' start' end_' admit_type' day x_val clinic) ->
  forall i j,
    float_cell df start end_ clinics admit_type i j
    = float_cell df' start' end_' clinics admit_type' i j.
Proof.
  intros H i j. unfold float_cell.
  destruct (nth_error day_list i) as [day|]; [|reflexivity].
  destruct (nth_error x_axis j) as [x_val|] eqn:Ex; [|reflexivity].
  apply fold_left_ext_in. intros acc clinic Hc. unfold accumulate.
  rewrite (H clinic day x_val Hc); [reflexivity|].
  eapply nth_error_In. exact Ex.
Qed.

Lemma heatmap_clinic_ext df df' start end_ start' end_' clinics admit_type
    admit_type' :
  (forall clinic day x_val, In clinic clinics -> In x_val x_axis ->
     clinic_cell df start end_ admit_type day x_val clinic
     = clinic_cell df' start' end_' admit_type' day x_val clinic) ->
  generate_patient_volume_heatmap df start end_ clinics admit_type
  = generate_patient_volume_heatmap df' start' end_' clinics admit_type'.
Proof.
  intros H. rewrite !heatmap_closed_form. do 2 f_equal.
  apply build_ext. intros i j _ _. now apply float_cell_ext.
Qed.

(** A clinic without counts in a cell leaves the cell as it is when the
    cell holds zero. *)
Lemma fold_accumulate_zero df start end_ admit_type day x_val clinics :
  (forall clinic, In clinic clinics ->
     clinic_cell df start end_ admit_type day x_val clinic = 0) ->
  fold_left (accumulate df start end_ admit_type day x_val) clinics (Finite 0)
  = Finite 0.
Proof.
  induction clinics as [|clinic clinics IH]; intros H; [reflexivity|].
  cbn [fold_left]. unfold accumulate at 2.
  rewrite (H clinic (or_introl eq_refl)), add_zero_zero.
  apply IH. intros c Hc. apply H. now right.
Qed.

Lemma float_cell_zero df start end_ clinics admit_type :
  (forall clinic day x_val, In clinic clinics -> In x_val x_axis ->
     clinic_cell df start end_ admit_type day x_val clinic = 0) ->
  forall i j, float_cell df start end_ clinics admit_type i j = Finite 0.
Proof.
  intros H i j. unfold float_cell.
  destruct (nth_error day_list i) as [day|]; [|reflexivity].
  destruct (nth_error x_axis j) as [x_val|] eqn:Ex; [|reflexivity].
  apply fold_accumulate_zero. intros clinic Hc.
  apply H; [exact Hc|]. eapply nth_error_In. exact Ex.
Qed.

Lemma heatmap_all_zero df start end_ clinics admit_type :
  (forall clinic day x_val, In clinic clinics -> In x_val x_axis ->
     clinic_cell df start end_ admit_type day x_val clinic = 0) ->
  generate_patient_volume_heatmap df start end_ clinics admit_type
  = Some {| fig_x := x_axis; fig_y := day_list; fig_z := zeros 7 24 |}.
Proof.
  intros H. rewrite heatmap_closed_form, zeros_build.
  do 2 f_equal. apply build_ext. intros i j _ _.
  now apply float_cell_zero.
Qed.

Lemma heatmap_empty_table start end_ clinics admit_type :
  generate_patient_volume_heatmap [] start end_ clinics admit_type
  = Some {| fig_x := x_axis; fig_y := day_list; fig_z := zeros 7 24 |}.
Proof. apply heatmap_all_zero. reflexivity. Qed.

Lemma clinic_cell_bound df start end_ admit_type day x_val clinic :
  Z.abs (clinic_cell df start end_ admit_type day x_val clinic)
  <= magnitude df.
Proof. unfold clinic_cell. apply abs_sum_filter_le. Qed.

(** While the running sum stays within 2^53 every addition is exact: the
    cell holds the sum in [Z] of the count sums of the clinics. *)
Lemma fold_accumulate_exact df start end_ admit_type day x_val clinics :
  forall a,
    Z.abs a + Z.of_nat (List.length clinics) * magnitude df <= 2 ^ 53 ->
    fold_left (accumulate df start end_ admit_type day x_val) clinics (Finite a)
    = Finite (a + exact_sum
                    (map (clinic_cell df start end_ admit_type day x_val) clinics)).
Proof.
  pose proof (magnitude_nonneg df) as HB.
  induction clinics as [|clinic clinics IH]; intros a H.
  - cbn. f_equal. lia.
  - cbn [fold_left map exact_sum fold_right].
    fold (exact_sum
            (map (clinic_cell df start end_ admit_type day x_val) clinics)).
    pose proof (clinic_cell_bound df start end_ admit_type day x_val clinic)
      as Hv.
    cbn [List.length] in H.
    rewrite Nat2Z.inj_succ, Z.mul_succ_l in H.
    assert (HK : 0 <= Z.of_nat (List.length clinics) * magnitude df)
      by (apply Z.mul_nonneg_nonneg; lia).
    unfold accumulate at 2. rewrite add_exact by lia.
    rewrite IH by lia. f_equal. lia.
Qed.

Lemma float_cell_exact df start end_ clinics admit_type i j :
  fits_float64 df clinics ->
  float_cell df start end_ clinics admit_type i j
  = Finite (heatmap_cell df start end_ clinics admit_type i j).
Proof.
  intros H. unfold float_cell, heatmap_cell.
  destruct (nth_error day_list i) as [day|]; [|reflexivity].
  destruct (nth_error x_axis j) as [x_val|]; [|reflexivity].
  rewrite fold_accumulate_exact; [reflexivity|].
  unfold fits_float64 in H. cbn [Z.abs]. lia.
Qed.

(** Within the exact range, the heatmap holds in every cell the sum in [Z]
    that the cell stands for. *)
Lemma heatmap_exact_form df start end_ clinics admit_type :
  fits_float64 df clinics ->
  generate_patient_volume_heatmap df start end_ clinics admit_type
  = Some {| fig_x := x_axis; fig_y := day_list;
            fig_z := build_exact 7 24
                       (heatmap_cell df start end_ clinics admit_type) |}.
Proof.
  intros H. rewrite heatmap_closed_form. do 2 f_equal.
  apply build_ext. intros i j _ _. now apply float_cell_exact.
Qed.

Lemma fits_float64_int64 df clinic clinics :
  fits_float64 df (clinic :: clinics) -> fits_int64 df.
Proof.
  unfold fits_float64, fits_int64. cbn [List.length].
  rewrite Nat2Z.inj_succ, Z.mul_succ_l.
  pose proof (magnitude_nonneg df) as HB.
  assert (HK : 0 <= Z.of_nat (List.length clinics) * magnitude df)
    by (apply Z.mul_nonneg_nonneg; lia).
  lia.
Qed.

Lemma fits_float64_app_l df clinics1 clinics2 :
  fits_float64 df (clinics1 ++ clinics2) -> fits_float64 df clinics1.
Proof.
  unfold fits_float64. rewrite length_app, Nat2Z.inj_add, Z.mul_add_distr_r.
  pose proof (magnitude_nonneg df) as HB.
  assert (HK : 0 <= Z.of_nat (List.length clinics2) * magnitude df)
    by (apply Z.mul_nonneg_nonneg; lia).
  lia.
Qed.

Lemma fits_float64_app_r df clinics1 clinics2 :
  fits_float64 df (clinics1 ++ clinics2) -> fits_float64 df clinics2.
Proof.
  unfold fits_float64. rewrite length_app, Nat2Z.inj_add, Z.mul_add_distr_r.
  pose proof (magnitude_nonneg df) as HB.
  assert (HK : 0 <= Z.of_nat (List.length clinics1) * magnitude df)
    by (apply Z.mul_nonneg_nonneg; lia).
  lia.
Qed.

(** The table, row by row: the total of a clinic is its sum of counts,
    wrapped to int64. *)
Lemma table_closed_form df clinics admit_type :
  update_patient_volume_table df clinics admit_type
  = map (fun clinic => (clinic, Int64.wrap (clinic_total df admit_type clinic)))
        clinics.
Proof.
  unfold update_patient_volume_table.
  destruct clinics as [|c clinics]; [reflexivity|].
  apply map_ext. intros clinic. f_equal.
  rewrite sum_wrap. f_equal.
  unfold clinic_total, loc_mask, clinic_mask. apply sum_map_filter.
Qed.

Lemma clinic_total_bound df admit_type clinic :
  Z.abs (clinic_total df admit_type clinic) <= magnitude df.
Proof. unfold clinic_total. apply abs_sum_if_le. Qed.

(** When no sum can wrap, the table holds the sums in [Z]. *)
Lemma table_exact_form df clinics admit_type :
  fits_int64 df ->
  update_patient_volume_table df clinics admit_type
  = map (fun clinic => (clinic, clinic_total df admit_type clinic)) clinics.
Proof.
  intros H. rewrite table_closed_form. apply map_ext. intros clinic.
  f_equal. apply wrap_small.
  pose proof (clinic_total_bound df admit_type clinic).
  unfold fits_int64 in H. lia.
Qed.

Lemma table_exact_form_selection df clinics admit_type :
  fits_float64 df clinics ->
  update_patient_volume_table df clinics admit_type
  = map (fun clinic => (clinic, clinic_total df admit_type clinic)) clinics.
Proof.
  intros H. destruct clinics as [|c clinics]; [reflexivity|].
  apply table_exact_form. eapply fits_float64_int64. exact H.
Qed.

End Cells.
(* ================================================================== *)
(** ** Cells and totals, record by record                                *)
(* ================================================================== *)

Section RecordByRecord.

(** Summing one cell over the selection weighs every record by the number
    of occurrences of its clinic. *)
Lemma sum_clinic_cell df start end_ clinics admit_type day x_val :
  exact_sum (map (clinic_cell df start end_ admit_type day x_val) clinics)
  = weighted_cell df start end_ clinics admit_type day x_val.
Proof.
  unfold clinic_cell, weighted_cell.
  rewrite (sum_map_ext _
             (fun clinic =>
                exact_sum (map (fun r =>
                            if String.eqb (Clinic_Name r) clinic
                            then if isin (Admit_Source r) admit_type
                                    && in_dates start end_ r
                                    && String.eqb (Days_of_Wk r) day
                                    && String.eqb (Check_In_Hour r) x_val
                                 then Number_of_Records r else 0
                            else 0) df))).
  2:{ intros clinic _. rewrite sum_map_filter.
      apply sum_map_ext. intros r _. unfold clinic_mask.
      destruct (String.eqb (Clinic_Name r) clinic),
               (isin (Admit_Source r) admit_type),
               (in_dates start end_ r),
               (String.eqb (Days_of_Wk r) day),
               (String.eqb (Check_In_Hour r) x_val); reflexivity. }
  rewrite sum_map_exchange.
  apply sum_map_ext. intros r _.
  rewrite sum_indicator. unfold occurrences.
  destruct (isin (Admit_Source r) admit_type && in_dates start end_ r
            && String.eqb (Days_of_Wk r) day
            && String.eqb (Check_In_Hour r) x_val); lia.
Qed.

Lemma sum_seq_nth_error {A : Type} (g : A -> Z) (l : list A) (n : nat) :
  (List.length l <= n)%nat ->
  exact_sum (map (fun i => match nth_error l i with Some a => g a | None => 0 end)
           (seq 0 n))
  = exact_sum (map g l).
Proof.
  revert n. induction l as [|a l IH]; intros n Hn.
  - transitivity (exact_sum (map (fun _ : nat => 0) (seq 0 n)));
      [| apply sum_map_zero].
    apply sum_map_ext. intros i _. now destruct i.
  - destruct n as [|n]; [simpl in Hn; lia|].
    simpl in Hn. rewrite <- cons_seq, <- seq_shift. simpl.
    rewrite map_map. simpl. f_equal. apply IH. lia.
Qed.

(** The sum of all cells, as a sum over the two axes. *)
Lemma heatmap_total df start end_ clinics admit_type :
  total (build_exact 7 24 (heatmap_cell df start end_ clinics admit_type))
  = exact_sum (map (fun day =>
                exact_sum (map (fun x_val =>
                            weighted_cell df start end_ clinics admit_type day x_val)
                         x_axis))
             day_list).
Proof.
  rewrite build_exact_total.
  rewrite <- (sum_seq_nth_error
                (fun day => exact_sum (map (fun x_val =>
                   weighted_cell df start end_ clinics admit_type day x_val) x_axis))
                day_list 7) by (rewrite day_list_length; lia).
  apply sum_map_ext. intros i _. unfold heatmap_cell.
  destruct (nth_error day_list i) as [day|].
  - rewrite <- (sum_seq_nth_error
                  (fun x_val => weighted_cell df start end_ clinics admit_type day x_val)
                  x_axis 24) by (rewrite x_axis_length; lia).
    apply sum_map_ext. intros j _.
    destruct (nth_error x_axis j); [apply sum_clinic_cell | reflexivity].
  - transitivity (exact_sum (map (fun _ : nat => 0) (seq 0 24)));
      [| apply sum_map_zero].
    apply sum_map_ext. intros j _. now destruct (nth_error x_axis j).
Qed.

End RecordByRecord.

(* ================================================================== *)
(** ** Rows produced by the load-time code                               *)
(* ================================================================== *)

Section LoadedRows.

Lemma NoDup_of_nodup (l : list string) : nodup string_dec l = l -> NoDup l.
Proof. intros E. rewrite <- E. apply NoDup_nodup. Qed.

Lemma day_list_NoDup : NoDup day_list.
Proof. apply NoDup_of_nodup. vm_compute. reflexivity. Qed.

Lemma x_axis_NoDup : NoDup x_axis.
Proof. apply NoDup_of_nodup. vm_compute. reflexivity. Qed.

Lemma x_axis_labels :
  x_axis = ["07 AM"; "08 AM"; "09 AM"; "10 AM"; "11 AM"; "12 PM";
            "01 PM"; "02 PM"; "03 PM"; "04 PM"; "05 PM"; "06 PM"]%string.
Proof. vm_compute. reflexivity. Qed.

(** Every timestamp falls on one of the seven days of [day_list]. *)
Lemma strftime_A_in_day_list (t : Z) : In (strftime_A t) day_list.
Proof.
  unfold strftime_A, weekday.
  pose proof (Z.mod_pos_bound (seconds_of t / SECONDS_PER_DAY + 3) 7 eq_refl) as Hb.
  remember ((seconds_of t / SECONDS_PER_DAY + 3) mod 7) as w eqn:Hw. clear Hw.
  assert (H : w = 0 \/ w = 1 \/ w = 2 \/ w = 3 \/ w = 4 \/ w = 5 \/ w = 6) by lia.
  destruct H as [->|[->|[->|[->|[->|[->| ->]]]]]]; simpl; tauto.
Qed.

Lemma in_load (csv : list CsvRow) (r : Row) :
  In r (load csv) -> exists c, In c csv /\ r = load_row c.
Proof.
  unfold load. intros H. apply in_map_iff in H.
  destruct H as [c [E Hc]]. exists c. now split.
Qed.

Lemma loaded_day (csv : list CsvRow) (r : Row) :
  In r (load csv) -> In (Days_of_Wk r) day_list.
Proof.
  intros H. apply in_load in H. destruct H as [c [_ ->]]. simpl.
  apply strftime_A_in_day_list.
Qed.

Lemma loaded_whole_second (csv : list CsvRow) (r : Row) :
  In r (load csv) -> exists s, Check_In_Time r = s * NS_PER_SECOND.
Proof.
  intros H. apply in_load in H. destruct H as [c [_ ->]]. simpl. eauto.
Qed.

Lemma loaded_hour (csv : list CsvRow) (r : Row) :
  In r (load csv) -> Check_In_Hour r = strftime_I_p (Check_In_Time r).
Proof.
  intros H. apply in_load in H. destruct H as [c [_ ->]]. reflexivity.
Qed.

Lemma loaded_count_nonneg (csv : list CsvRow) (r : Row) :
  counts_nonneg csv -> In r (load csv) -> 0 <= Number_of_Records r.
Proof.
  intros Hn H. apply in_load in H. destruct H as [c [Hc ->]]. simpl.
  unfold counts_nonneg in Hn. rewrite Forall_forall in Hn. now apply Hn.
Qed.

Lemma sum_indicator_and (b : bool) (k : string) (v : Z) (l : list string) :
  exact_sum (map (fun a => if b && String.eqb k a then v else 0) l)
  = if b then Z.of_nat (count_occ string_dec l k) * v else 0.
Proof.
  destruct b; simpl; [apply sum_indicator | apply sum_map_zero].
Qed.

(** Over a loaded table and a selection without repeated clinic, the sum of
    all cells is the sum of the counts of the matched records whose hour
    label is a column. *)
Lemma heatmap_total_loaded csv start end_ clinics admit_type :
  NoDup clinics ->
  total (build_exact 7 24 (heatmap_cell (load csv) start end_ clinics admit_type))
  = exact_sum (map Number_of_Records
           (filter in_columns (matched (load csv) start end_ clinics admit_type))).
Proof.
  intros ND. rewrite heatmap_total. unfold weighted_cell, matched.
  rewrite (sum_map_ext _ _ day_list
             (fun day _ => sum_map_exchange _ x_axis (load csv))).
  rewrite sum_map_exchange.
  rewrite filter_filter, sum_map_filter.
  apply sum_map_ext. intros r Hr.
  rewrite (sum_map_ext _ _ day_list
             (fun day _ =>
                sum_indicator_and
                  (isin (Admit_Source r) admit_type && in_dates start end_ r
                   && String.eqb (Days_of_Wk r) day)
                  (Check_In_Hour r)
                  (occurrences clinics r * Number_of_Records r) x_axis)).
  rewrite (sum_indicator_and
             (isin (Admit_Source r) admit_type && in_dates start end_ r)
             (Days_of_Wk r)).
  rewrite (NoDup_count_occ_isin _ _ x_axis_NoDup).
  rewrite (NoDup_count_occ_isin _ _ day_list_NoDup).
  unfold occurrences. rewrite (NoDup_count_occ_isin _ _ ND).
  rewrite (proj2 (isin_In _ _) (loaded_day csv r Hr)).
  unfold in_columns.
  destruct (isin (Clinic_Name r) clinics), (isin (Admit_Source r) admit_type),
           (in_dates start end_ r), (isin (Check_In_Hour r) x_axis);
    cbv beta iota delta [andb]; lia.
Qed.

End LoadedRows.

(* ================================================================== *)
(** ** The claims                                                        *)
(* ================================================================== *)

Import Examples Callback Controls Derived MoreExamples.

(** A clinic has no count in a cell whose test fails on every record. *)
Lemma clinic_cell_test_false df start end_ admit_type day x_val clinic :
  (forall r, In r df ->
     clinic_mask clinic admit_type r && in_dates start end_ r
     && String.eqb (Days_of_Wk r) day
     && String.eqb (Check_In_Hour r) x_val = false) ->
  clinic_cell df start end_ admit_type day x_val clinic = 0.
Proof.
  intros H. rewrite clinic_cell_records.
  transitivity (exact_sum (map (fun _ : Row => 0) df)); [|apply sum_map_zero].
  apply sum_map_ext. intros r Hr. now rewrite (H r Hr).
Qed.

(** C2 (the code departs from the claim).  Whatever the selection, the call
    succeeds and the array has the same shape; but that shape is 7 rows by 24
    columns, as [np.zeros((7, 24))] makes it, while the hour axis has the 12
    labels 07 AM to 06 PM: the array does not have 12 columns.  Columns 12
    to 23 carry no label and stay at zero. *)
Theorem C2_matrix_is_7_by_24 :
  forall df start end_ clinics admit_type,
  exists fig,
    generate_patient_volume_heatmap df start end_ clinics admit_type = Some fig
    /\ fig_y fig = day_list
    /\ fig_x fig = x_axis
    /\ List.length (fig_x fig) = 12%nat
    /\ has_shape (fig_z fig) 7 24
    /\ (forall i j, (12 <= j)%nat -> cell (fig_z fig) i j = Finite 0).
Proof.
  intros. eexists. split; [apply heatmap_closed_form|]. cbn [fig_x fig_y fig_z].
  split; [reflexivity|]. split; [reflexivity|]. split; [reflexivity|].
  split; [apply build_shape|].
  intros i j Hj. rewrite cell_build.
  destruct (Nat.ltb i 7 && Nat.ltb j 24); [|reflexivity].
  unfold float_cell.
  destruct (nth_error day_list i); [|reflexivity].
  assert (E : nth_error x_axis j = None)
    by (apply nth_error_None; rewrite x_axis_length; exact Hj).
  now rewrite E.
Qed.

(** C3.  The table has one row per entry of the clinic selection, in the
    order of the selection, and an empty selection gives the empty table.
    The total of a row is the int64 sum of the counts of all records of that
    clinic whose admit source is selected, with no date restriction: the
    sum in [Z] wrapped to 64 bits, hence the sum itself whenever the counts
    of the table cannot overflow an int64. *)
Theorem C3_totals_per_clinic :
  forall df clinics admit_type,
    update_patient_volume_table df clinics admit_type
    = map (fun clinic => (clinic, Int64.wrap (clinic_total df admit_type clinic)))
          clinics
    /\ map fst (update_patient_volume_table df clinics admit_type) = clinics
    /\ List.length (update_patient_volume_table df clinics admit_type)
       = List.length clinics
    /\ update_patient_volume_table df [] admit_type = []
    /\ (fits_int64 df ->
        update_patient_volume_table df clinics admit_type
        = map (fun clinic => (clinic, clinic_total df admit_type clinic)) clinics).
Proof.
  intros df clinics admit_type.
  split; [apply table_closed_form|].
  split; [|split; [|split]].
  - rewrite table_closed_form, map_map. cbn [fst]. apply map_id.
  - rewrite table_closed_form. apply length_map.
  - reflexivity.
  - apply table_exact_form.
Qed.

Lemma C3_witness :
  fits_int64 (load csv_two_records)
  /\ update_patient_volume_table (load csv_two_records) ["A"]%string ["X"]%string
     = map (fun clinic =>
              (clinic, clinic_total (load csv_two_records) ["X"]%string clinic))
           ["A"]%string.
Proof.
  assert (H : fits_int64 (load csv_two_records)) by reflexivity.
  split; [exact H|].
  exact (proj2 (proj2 (proj2 (proj2
           (C3_totals_per_clinic (load csv_two_records)
              ["A"]%string ["X"]%string)))) H).
Defined.

(** Beyond the range of int64 the total wraps around: two counts of 2^62
    give the total -2^63. *)
Lemma total_wraps_beyond_int64 :
  update_patient_volume_table (load csv_beyond_int64) ["A"]%string ["X"]%string
  = [("A"%string, - 2 ^ 63)].
Proof. vm_compute. reflexivity. Qed.

Lemma clinic_cell_no_category df start end_ day x_val clinic :
  clinic_cell df start end_ [] day x_val clinic = 0.
Proof.
  apply clinic_cell_test_false. intros r _.
  unfold clinic_mask. cbn [isin existsb]. now rewrite andb_false_r.
Qed.

(** C5.  An empty category selection selects no record: the array is the
    all-zero array of its fixed shape and every selected clinic has total
    zero.  An empty clinic selection gives the same all-zero array. *)
Theorem C5_empty_selections :
  forall df start end_ clinics admit_type,
    generate_patient_volume_heatmap df start end_ clinics []
    = Some {| fig_x := x_axis; fig_y := day_list; fig_z := zeros 7 24 |}
    /\ update_patient_volume_table df clinics []
       = map (fun clinic => (clinic, 0)) clinics
    /\ generate_patient_volume_heatmap df start end_ [] admit_type
       = Some {| fig_x := x_axis; fig_y := day_list; fig_z := zeros 7 24 |}.
Proof.
  intros df start end_ clinics admit_type. split; [|split].
  - apply heatmap_all_zero. intros clinic day x_val _ _.
    apply clinic_cell_no_category.
  - rewrite table_closed_form.
    apply map_ext. intros clinic. f_equal.
    assert (E : clinic_total df [] clinic = 0).
    { unfold clinic_total.
      transitivity (exact_sum (map (fun _ : Row => 0) df));
        [|apply sum_map_zero].
      apply sum_map_ext. intros r _. cbn [isin existsb].
      now rewrite andb_false_r. }
    rewrite E. reflexivity.
  - apply heatmap_all_zero. intros clinic day x_val [].
Qed.



(** Beyond the exact range the order of the clinics shows in the last bits
    of a cell: 2^53 + 1 + 1 accumulates to 2^53 (each addition of 1 is
    rounded away), 1 + 1 + 2^53 to 2^53 + 2. *)
Lemma accumulation_order_beyond_exact_range :
  (exists fig,
     generate_patient_volume_heatmap (load csv_beyond_exact)
       (midnight monday) (midnight tuesday)
       ["A"; "B"; "C"]%string ["X"]%string = Some fig
     /\ cell (fig_z fig) 0 1 = Finite (2 ^ 53))
  /\ (exists fig,
        generate_patient_volume_heatmap (load csv_beyond_exact)
          (midnight monday) (midnight tuesday)
          ["B"; "C"; "A"]%string ["X"]%string = Some fig
        /\ cell (fig_z fig) 0 1 = Finite (2 ^ 53 + 2)).
Proof.
  split; eexists; (split; [vm_compute; reflexivity|]); vm_compute; reflexivity.
Qed.

Lemma in_dates_reversed start end_ r :
  end_ < start -> in_dates (midnight start) (midnight end_) r = false.
Proof.
  intros H. unfold in_dates, slice_bound_left, slice_bound_right, midnight,
    SECONDS_PER_DAY, NS_PER_SECOND.
  destruct (Z.leb_spec (start * 86400 * 1000000000) (Check_In_Time r));
    [|reflexivity].
  destruct (Z.leb_spec (Check_In_Time r)
              (end_ * 86400 * 1000000000 + 1000000000 - 1));
    [lia | reflexivity].
Qed.

(** C10.  When the start date is later than the end date, and both are
    dates whose labels [datetime64[ns]] can hold, the callback raises no
    error and returns the all-zero array: no record lies between the two
    bounds. *)
Theorem C10_start_after_end :
  forall df start end_ clinics admit_type,
    label_in_range (midnight start) ->
    label_in_range (midnight end_) ->
    end_ < start ->
    update_heatmap df start end_ clinics admit_type
    = Some {| fig_x := x_axis; fig_y := day_list; fig_z := zeros 7 24 |}.
Proof.
  intros df start end_ clinics admit_type _ _ H. unfold update_heatmap.
  apply heatmap_all_zero. intros clinic day x_val _ _.
  apply clinic_cell_test_false. intros r _.
  rewrite (in_dates_reversed start end_ r H).
  now rewrite andb_false_r.
Qed.

Lemma C10_witness :
  label_in_range (midnight tuesday)
  /\ label_in_range (midnight monday)
  /\ monday < tuesday
  /\ update_heatmap (load csv_two_records) tuesday monday ["A"]%string ["X"]%string
     = Some {| fig_x := x_axis; fig_y := day_list; fig_z := zeros 7 24 |}.
Proof.
  assert (H1 : label_in_range (midnight tuesday))
    by (split; vm_compute; discriminate).
  assert (H2 : label_in_range (midnight monday))
    by (split; vm_compute; discriminate).
  assert (H3 : monday < tuesday) by reflexivity.
  split; [exact H1|]. split; [exact H2|]. split; [exact H3|].
  exact (C10_start_after_end (load csv_two_records) tuesday monday
           ["A"]%string ["X"]%string H1 H2 H3).
Defined.

Lemma sum_map_repeat {A : Type} (g : A -> Z) (a : A) (n : nat) :
  exact_sum (map g (repeat a n)) = Z.of_nat n * g a.
Proof.
  induction n as [|n IH]; [reflexivity|].
  cbn [repeat map exact_sum fold_right]. fold (exact_sum (map g (repeat a n))).
  rewrite IH. lia.
Qed.

Lemma map_repeat_pair {A B : Type} (g : A -> B) (a : A) (n : nat) :
  map g (repeat a n) = repeat (g a) n.
Proof.
  induction n as [|n IH]; simpl; [reflexivity | now rewrite IH].
Qed.

(** C9.  The selection is not deduplicated.  As long as the cells stay where
    float64 additions are exact, every matched record counts in the array
    once per occurrence of its clinic in the selection, so a clinic
    selected [n] times contributes [n] times its cells; in the table a
    clinic selected [n] times has [n] rows. *)
Theorem C9_repeated_clinics_count_again :
  forall df start end_ clinics admit_type,
    fits_float64 df clinics ->
    generate_patient_volume_heatmap df start end_ clinics admit_type
    = Some {| fig_x := x_axis; fig_y := day_list;
              fig_z := build_exact 7 24
                         (weighted_heatmap_cell df start end_ clinics admit_type) |}
    /\ update_patient_volume_table df clinics admit_type
       = map (fun clinic => (clinic, clinic_total df admit_type clinic)) clinics
    /\ (forall clinic n,
          clinics = repeat clinic n ->
          generate_patient_volume_heatmap df start end_ clinics admit_type
          = Some {| fig_x := x_axis; fig_y := day_list;
                    fig_z := build_exact 7 24
                               (fun i j =>
                                  Z.of_nat n
                                  * heatmap_cell df start end_ [clinic] admit_type i j) |}
          /\ update_patient_volume_table df clinics admit_type
             = repeat (clinic, clinic_total df admit_type clinic) n).
Proof.
  intros df start end_ clinics admit_type Hfit. split; [|split].
  - rewrite heatmap_exact_form by assumption. do 2 f_equal.
    unfold build_exact. apply build_ext. intros i j _ _. f_equal.
    unfold heatmap_cell, weighted_heatmap_cell.
    destruct (nth_error day_list i) as [day|]; [|reflexivity].
    destruct (nth_error x_axis j) as [x_val|]; [|reflexivity].
    apply sum_clinic_cell.
  - now apply table_exact_form_selection.
  - intros clinic n E. split.
    + rewrite heatmap_exact_form by assumption. do 2 f_equal.
      unfold build_exact. apply build_ext. intros i j _ _. f_equal.
      subst clinics. unfold heatmap_cell.
      destruct (nth_error day_list i) as [day|]; [|lia].
      destruct (nth_error x_axis j) as [x_val|]; [|lia].
      rewrite sum_map_repeat. cbn [map exact_sum fold_right]. lia.
    + rewrite table_exact_form_selection by assumption.
      subst clinics.
      apply (map_repeat_pair
               (fun c => (c, clinic_total df admit_type c)) clinic n).
Qed.

Lemma C9_witness :
  fits_float64 (load csv_one_record) ["A"; "A"]%string
  /\ update_patient_volume_table (load csv_one_record) ["A"; "A"]%string ["X"]%string
     = repeat ("A"%string, clinic_total (load csv_one_record) ["X"]%string "A"%string)
              2.
Proof.
  assert (Hf : fits_float64 (load csv_one_record) ["A"; "A"]%string)
    by (vm_compute; discriminate).
  split; [exact Hf|].
  exact (proj2 (proj2 (proj2
           (C9_repeated_clinics_count_again (load csv_one_record)
              (midnight monday) (midnight tuesday)
              ["A"; "A"]%string ["X"]%string Hf)) "A"%string 2%nat eq_refl)).
Defined.

Lemma matched_loaded csv start end_ clinics admit_type r :
  In r (matched (load csv) start end_ clinics admit_type) -> In r (load csv).
Proof. unfold matched. intros H. now apply filter_In in H. Qed.

(** C4, as the code has it.  Over records with non-negative counts, for a
    selection that names no clinic twice, and as long as the cells stay
    where float64 additions are exact, the sum of all cells is the sum of
    the counts of the matched records whose hour label is a column; it is at
    most the sum of the counts of all matched records, and the two sums are
    equal exactly when every matched record whose hour label is outside the
    columns has count zero. *)
Theorem C4_cells_sum_at_most_matched :
  forall csv start end_ clinics admit_type,
    NoDup clinics ->
    counts_nonneg csv ->
    fits_float64 (load csv) clinics ->
    exists fig,
      generate_patient_volume_heatmap (load csv) start end_ clinics admit_type
      = Some fig
      /\ total (fig_z fig)
         = exact_sum (map Number_of_Records
                        (filter in_columns
                           (matched (load csv) start end_ clinics admit_type)))
      /\ total (fig_z fig)
         <= exact_sum (map Number_of_Records
                         (matched (load csv) start end_ clinics admit_type))
      /\ (total (fig_z fig)
          = exact_sum (map Number_of_Records
                         (matched (load csv) start end_ clinics admit_type))
          <-> forall r,
                In r (matched (load csv) start end_ clinics admit_type) ->
                in_columns r = false -> Number_of_Records r = 0).
Proof.
  intros csv start end_ clinics admit_type ND Hnn Hfit.
  eexists. split; [now apply heatmap_exact_form|]. cbn [fig_z].
  rewrite (heatmap_total_loaded csv start end_ clinics admit_type ND).
  set (M := matched (load csv) start end_ clinics admit_type).
  assert (Hpos : forall r, In r M -> 0 <= Number_of_Records r).
  { intros r Hr. apply (loaded_count_nonneg csv r Hnn).
    now apply matched_loaded in Hr. }
  assert (Hle : forall r, In r M ->
            (if in_columns r then Number_of_Records r else 0)
            <= Number_of_Records r).
  { intros r Hr. specialize (Hpos r Hr). destruct (in_columns r); lia. }
  rewrite sum_map_filter.
  split; [reflexivity|]. split; [now apply sum_map_le|].
  split.
  - intros Heq r Hr Hcol.
    pose proof (sum_map_le_eq _ _ M Hle Heq r Hr) as E.
    cbv beta in E. rewrite Hcol in E. now symmetry.
  - intros H. apply sum_map_ext. intros r Hr.
    destruct (in_columns r) eqn:Hcol; [reflexivity|].
    symmetry. now apply H.
Qed.

Lemma C4_witness :
  NoDup ["A"]%string
  /\ counts_nonneg csv_two_records
  /\ fits_float64 (load csv_two_records) ["A"]%string
  /\ exists fig,
       generate_patient_volume_heatmap (load csv_two_records)
         (midnight monday) (midnight tuesday) ["A"]%string ["X"]%string
       = Some fig
       /\ total (fig_z fig)
          <= exact_sum (map Number_of_Records
                          (matched (load csv_two_records)
                             (midnight monday) (midnight tuesday)
                             ["A"]%string ["X"]%string)).
Proof.
  assert (ND : NoDup ["A"]%string)
    by (constructor; [intros [] | constructor]).
  assert (Hnn : counts_nonneg csv_two_records)
    by (repeat constructor; simpl; lia).
  assert (Hf : fits_float64 (load csv_two_records) ["A"]%string)
    by (vm_compute; discriminate).
  split; [exact ND|]. split; [exact Hnn|]. split; [exact Hf|].
  destruct (C4_cells_sum_at_most_matched csv_two_records
              (midnight monday) (midnight tuesday)
              ["A"]%string ["X"]%string ND Hnn Hf) as [fig [E [_ [Hle _]]]].
  exists fig. split; assumption.
Defined.

(** C4 as stated fails on the code in two ways.  With clinic A selected
    twice the only record, of count 3, is added twice: the cells sum to 6,
    above the sum 3 of the matched records.  And with one record of count 0
    at 06 AM, the two sums are equal (both 0) although the matched record
    lies outside the columns. *)
Lemma C4_counterexample :
  (exists fig,
     update_heatmap (load csv_one_record) monday tuesday
       ["A"; "A"]%string ["X"]%string = Some fig
     /\ total (fig_z fig) = 6
     /\ exact_sum (map Number_of_Records
               (matched (load csv_one_record) (midnight monday) (midnight tuesday)
                  ["A"; "A"]%string ["X"]%string)) = 3)
  /\ (exists fig,
        update_heatmap (load csv_early_zero) monday tuesday
          ["A"]%string ["X"]%string = Some fig
        /\ total (fig_z fig)
           = exact_sum (map Number_of_Records
                    (matched (load csv_early_zero)
                       (midnight monday) (midnight tuesday)
                       ["A"]%string ["X"]%string))
        /\ exists r,
             In r (matched (load csv_early_zero)
                     (midnight monday) (midnight tuesday)
                     ["A"]%string ["X"]%string)
             /\ Check_In_Hour r = "06 AM"%string
             /\ in_columns r = false).
Proof.
  split.
  - eexists. split; [vm_compute; reflexivity|].
    split; vm_compute; reflexivity.
  - eexists. split; [vm_compute; reflexivity|].
    split; [vm_compute; reflexivity|].
    exists (load_row (mkCsvRow "A" (Some "X"%string)
                        (epoch_seconds 2022 5 2 6 0 0) 0)).
    split; [vm_compute; now left|].
    split; vm_compute; reflexivity.
Qed.

(** The figure depends on the two bounds only through the rows they keep. *)
Lemma heatmap_dates_ext df start end_ start' end_' clinics admit_type :
  (forall r, In r df -> in_dates start end_ r = in_dates start' end_' r) ->
  generate_patient_volume_heatmap df start end_ clinics admit_type
  = generate_patient_volume_heatmap df start' end_' clinics admit_type.
Proof.
  intros H. apply heatmap_clinic_ext. intros clinic day x_val _ _.
  unfold clinic_cell.
  f_equal. f_equal. apply filter_ext_in. intros r Hr.
  now rewrite (H r Hr).
Qed.

Lemma in_dates_true start end_ r :
  slice_bound_left start <= Check_In_Time r ->
  Check_In_Time r <= slice_bound_right end_ ->
  in_dates start end_ r = true.
Proof.
  intros H1 H2. unfold in_dates.
  apply andb_true_intro. split; now apply Z.leb_le.
Qed.

(** C7.  With the two records of clinic A and category X on a Monday, 08:15
    with count 3 and 08:45 with count 2, the selection of clinic A, category
    X and any date range that starts on or before that Monday and ends after
    it gives the array with 5 in cell (Monday, 08 AM) and 0 elsewhere, and
    the table with the single row (A, 5). *)
Theorem C7_two_records_on_a_monday :
  forall start end_,
    start <= monday -> monday < end_ ->
    update_heatmap (load csv_two_records) start end_ ["A"]%string ["X"]%string
    = Some {| fig_x := x_axis; fig_y := day_list; fig_z := z_five_monday_8am |}
    /\ nth_error day_list 0 = Some "Monday"%string
    /\ nth_error x_axis 1 = Some "08 AM"%string
    /\ cell z_five_monday_8am 0 1 = Finite 5
    /\ total z_five_monday_8am = 5
    /\ update_patient_volume_table (load csv_two_records) ["A"]%string ["X"]%string
       = [("A"%string, 5)].
Proof.
  intros start end_ Hs He.
  split; [|repeat (split; [vm_compute; reflexivity|]); vm_compute; reflexivity].
  unfold update_heatmap.
  rewrite (heatmap_dates_ext _ _ _ (midnight monday) (midnight tuesday));
    [vm_compute; reflexivity|].
  assert (Hm : monday = 19114) by reflexivity.
  intros r Hr.
  assert (Ht : Check_In_Time r = 1651479300000000000
               \/ Check_In_Time r = 1651481100000000000).
  { destruct Hr as [<-|[<-|[]]]; [left | right]; vm_compute; reflexivity. }
  rewrite (in_dates_true (midnight monday) (midnight tuesday)).
  - apply in_dates_true;
      unfold slice_bound_left, slice_bound_right, midnight, SECONDS_PER_DAY,
        NS_PER_SECOND; lia.
  - destruct Ht as [-> | ->]; vm_compute; discriminate.
  - destruct Ht as [-> | ->]; vm_compute; discriminate.
Qed.

Lemma C7_witness :
  monday <= monday /\ monday < tuesday
  /\ update_heatmap (load csv_two_records) monday tuesday ["A"]%string ["X"]%string
     = Some {| fig_x := x_axis; fig_y := day_list; fig_z := z_five_monday_8am |}.
Proof.
  assert (H1 : monday <= monday) by (vm_compute; discriminate).
  assert (H2 : monday < tuesday) by reflexivity.
  split; [exact H1|]. split; [exact H2|].
  exact (proj1 (C7_two_records_on_a_monday monday tuesday H1 H2)).
Defined.
Lemma hour_at_midnight (d : Z) : hour (midnight d) = 0.
Proof.
  unfold hour, seconds_of, midnight, SECONDS_PER_DAY, NS_PER_SECOND.
  rewrite Z.div_mul by lia.
  replace (d * 86400) with (d * 24 * 3600) by lia.
  rewrite Z.div_mul by lia.
  apply Z.mod_mul. lia.
Qed.

Lemma hour_before_midnight (d : Z) : hour (midnight d - NS_PER_SECOND) = 23.
Proof.
  unfold hour, seconds_of, midnight, SECONDS_PER_DAY, NS_PER_SECOND.
  replace (d * 86400 * 1000000000 - 1000000000)
    with ((d * 86400 - 1) * 1000000000) by lia.
  rewrite Z.div_mul by lia.
  replace (d * 86400 - 1) with (3599 + (d * 24 - 1) * 3600) by lia.
  rewrite Z.div_add by lia.
  replace (3599 / 3600 + (d * 24 - 1)) with (23 + (d - 1) * 24)
    by (change (3599 / 3600) with 0; lia).
  rewrite Z.mod_add by lia. reflexivity.
Qed.

Lemma strftime_I_p_at_midnight (d : Z) :
  strftime_I_p (midnight d) = "12 AM"%string.
Proof. unfold strftime_I_p. rewrite hour_at_midnight. reflexivity. Qed.

Lemma strftime_I_p_before_midnight (d : Z) :
  strftime_I_p (midnight d - NS_PER_SECOND) = "11 PM"%string.
Proof. unfold strftime_I_p. rewrite hour_before_midnight. reflexivity. Qed.

(** On whole seconds, the last nanosecond of the right label adds nothing:
    the slice keeps the times from [start 00:00:00] to [end 00:00:00], both
    included. *)
Lemma in_dates_loaded csv start end_ r :
  In r (load csv) ->
  in_dates (midnight start) (midnight end_) r = true
  <-> midnight start <= Check_In_Time r <= midnight end_.
Proof.
  intros Hr. destruct (loaded_whole_second csv r Hr) as [s Hs].
  unfold in_dates. rewrite andb_true_iff, !Z.leb_le.
  unfold slice_bound_left, slice_bound_right, midnight, SECONDS_PER_DAY,
    NS_PER_SECOND in *.
  rewrite Hs. lia.
Qed.

Lemma sum_map_load (g : Row -> Z) (csv : list CsvRow) :
  exact_sum (map g (load csv)) = exact_sum (map (fun c => g (load_row c)) csv).
Proof. unfold load. now rewrite map_map. Qed.

Lemma label_no_column (label x_val : string) :
  isin label x_axis = false -> In x_val x_axis ->
  String.eqb label x_val = false.
Proof.
  intros H Hx. destruct (String.eqb_spec label x_val) as [->|]; [|reflexivity].
  apply isin_In in Hx. congruence.
Qed.

(** Records whose time is outside the bounds or whose hour label is no
    column can be dropped from the file without changing the figure. *)
Lemma heatmap_drop_records csv start end_ clinics admit_type
    (keep : CsvRow -> bool) :
  (forall c x_val, In c csv -> keep c = false -> In x_val x_axis ->
     in_dates start end_ (load_row c)
     && String.eqb (Check_In_Hour (load_row c)) x_val = false) ->
  generate_patient_volume_heatmap (load csv) start end_ clinics admit_type
  = generate_patient_volume_heatmap (load (filter keep csv)) start end_
      clinics admit_type.
Proof.
  intros H. apply heatmap_clinic_ext. intros clinic day x_val _ Hx.
  rewrite !clinic_cell_records, !sum_map_load, sum_map_filter.
  apply sum_map_ext. intros c Hc.
  destruct (keep c) eqn:E; [reflexivity|].
  pose proof (H c x_val Hc E Hx) as Hf.
  destruct (clinic_mask clinic admit_type (load_row c)),
           (in_dates start end_ (load_row c)),
           (String.eqb (Days_of_Wk (load_row c)) day),
           (String.eqb (Check_In_Hour (load_row c)) x_val);
    try reflexivity; discriminate.
Qed.

Lemma boundary_record_no_column c end_ x_val :
  at_end_boundary end_ c = true -> In x_val x_axis ->
  String.eqb (Check_In_Hour (load_row c)) x_val = false.
Proof.
  intros Hb Hx. unfold at_end_boundary in Hb.
  apply orb_true_iff in Hb. rewrite !Z.eqb_eq in Hb.
  cbn [load_row Check_In_Hour].
  destruct Hb as [E|E]; rewrite E.
  - replace (end_ * SECONDS_PER_DAY * NS_PER_SECOND) with (midnight end_)
      by reflexivity.
    rewrite strftime_I_p_at_midnight.
    now apply label_no_column.
  - replace ((end_ * SECONDS_PER_DAY - 1) * NS_PER_SECOND)
      with (midnight end_ - NS_PER_SECOND) by (unfold midnight; lia).
    rewrite strftime_I_p_before_midnight.
    now apply label_no_column.
Qed.

(** C1, as the code has it.  For a record of the table, the frame kept for a
    clinic holds it exactly when it passes the clinic and category mask and
    its time lies from 00:00:00 of the start date to 00:00:00 of the end
    date, both ends included: a record at exactly 00:00:00 of the end date
    is kept.  Such a record carries the hour label 12 AM, and a record one
    second earlier the label 11 PM; neither label is a column of the array,
    and neither record adds to any cell: the figure is the one of the file
    without the records at these two instants. *)
Theorem C1_slice_keeps_both_ends :
  forall csv start end_ clinics clinic admit_type r,
    In r (load csv) ->
    (In r (filtered_frame (load csv) (midnight start) (midnight end_)
             clinic admit_type)
     <-> clinic_mask clinic admit_type r = true
         /\ midnight start <= Check_In_Time r <= midnight end_)
    /\ (Check_In_Time r = midnight end_ ->
        Check_In_Hour r = "12 AM"%string /\ in_columns r = false)
    /\ (Check_In_Time r = midnight end_ - NS_PER_SECOND ->
        Check_In_Hour r = "11 PM"%string /\ in_columns r = false)
    /\ update_heatmap (load csv) start end_ clinics admit_type
       = update_heatmap
           (load (filter (fun c => negb (at_end_boundary end_ c)) csv))
           start end_ clinics admit_type.
Proof.
  intros csv start end_ clinics clinic admit_type r Hr.
  split; [|split; [|split]].
  - rewrite <- (in_dates_loaded csv start end_ r Hr).
    pose proof (filtered_frame_perm (load csv) (midnight start) (midnight end_)
                  clinic admit_type) as P.
    split.
    + intros H. apply (Permutation_in _ P) in H.
      apply filter_In in H. destruct H as [_ H].
      now apply andb_true_iff in H.
    + intros H. apply (Permutation_in _ (Permutation_sym P)).
      apply filter_In. split; [exact Hr|]. now apply andb_true_iff.
  - intros Ht. unfold in_columns.
    rewrite (loaded_hour csv r Hr), Ht, strftime_I_p_at_midnight.
    split; reflexivity.
  - intros Ht. unfold in_columns.
    rewrite (loaded_hour csv r Hr), Ht, strftime_I_p_before_midnight.
    split; reflexivity.
  - unfold update_heatmap. apply heatmap_drop_records.
    intros c x_val _ Hk Hx. apply negb_false_iff in Hk.
    rewrite (boundary_record_no_column c end_ x_val Hk Hx).
    apply andb_false_r.
Qed.

Lemma C1_witness :
  In row_at_midnight (load csv_at_midnight)
  /\ Check_In_Time row_at_midnight = midnight tuesday
  /\ In row_at_midnight
        (filtered_frame (load csv_at_midnight) (midnight monday)
           (midnight tuesday) "A"%string ["X"]%string)
  /\ update_heatmap (load csv_at_midnight) monday tuesday
       ["A"]%string ["X"]%string
     = update_heatmap
         (load (filter (fun c => negb (at_end_boundary tuesday c))
                       csv_at_midnight))
         monday tuesday ["A"]%string ["X"]%string.
Proof.
  assert (Hr : In row_at_midnight (load csv_at_midnight))
    by (left; reflexivity).
  split; [exact Hr|]. split; [reflexivity|].
  destruct (C1_slice_keeps_both_ends csv_at_midnight monday tuesday
              ["A"]%string "A"%string ["X"]%string row_at_midnight Hr)
    as [Hslice [_ [_ Hfig]]].
  split; [|exact Hfig].
  apply (proj2 Hslice).
  split; [reflexivity|].
  split; vm_compute; discriminate.
Defined.

(** C1 as stated fails on the code.  A record at exactly 00:00:00 of the end
    date passes the date slice: the frame kept for its clinic is the whole
    one-record table.  And a record of count 4 one second earlier, at
    23:59:59, is not in the array: the call returns the all-zero array. *)
Lemma C1_counterexample :
  (map Check_In_Time (load csv_at_midnight) = [midnight tuesday]
   /\ filtered_frame (load csv_at_midnight) (midnight monday) (midnight tuesday)
        "A"%string ["X"]%string
      = load csv_at_midnight)
  /\ (map Check_In_Time (load csv_before_midnight)
      = [midnight tuesday - NS_PER_SECOND]
      /\ map Number_of_Records (load csv_before_midnight) = [4]
      /\ update_heatmap (load csv_before_midnight) monday tuesday
           ["A"]%string ["X"]%string
         = Some {| fig_x := x_axis; fig_y := day_list; fig_z := zeros 7 24 |}).
Proof.
  repeat split; vm_compute; reflexivity.
Qed.

(* ================================================================== *)
(** ** The callbacks, statement by statement                             *)
(* ================================================================== *)

Section Statements.

Lemma setitem_app_last {A : Type} (h : list A) (z z' : A) :
  setitem (h ++ [z]) (List.length h) z' = Some (h ++ [z']).
Proof.
  induction h as [|a h IH]; simpl; [reflexivity | now rewrite IH].
Qed.

Lemma nth_error_app_last {A : Type} (h : list A) (z : A) :
  nth_error (h ++ [z]) (List.length h) = Some z.
Proof.
  rewrite nth_error_app2 by lia. now rewrite Nat.sub_diag.
Qed.

(** On the array allocated last, the statement [z[i][j] += v] does what
    [iadd] does to that array, and nothing else. *)
Lemma iadd_at_last df h z i j v :
  iadd_at (List.length h) i j v {| global_df := df; heap := h ++ [z] |}
  = match iadd z i j v with
    | Some z' => Some (tt, {| global_df := df; heap := h ++ [z'] |})
    | None => None
    end.
Proof.
  unfold iadd_at. cbn [heap global_df].
  rewrite nth_error_app_last.
  destruct (iadd z i j v) as [z'|]; [|reflexivity].
  now rewrite setitem_app_last.
Qed.

(** A loop of statements that all work on the array allocated last runs as
    the loop that threads that array. *)
Lemma for_m_last {A : Type} (body : A -> M unit)
    (pure : A -> ndarray -> option ndarray) df h (l : list A) :
  (forall a z, In a l ->
     body a {| global_df := df; heap := h ++ [z] |}
     = match pure a z with
       | Some z' => Some (tt, {| global_df := df; heap := h ++ [z'] |})
       | None => None
       end) ->
  forall z,
    for_m body l {| global_df := df; heap := h ++ [z] |}
    = match for_each pure l z with
      | Some z' => Some (tt, {| global_df := df; heap := h ++ [z'] |})
      | None => None
      end.
Proof.
  induction l as [|a l IH]; intros H z; [reflexivity|].
  cbn [for_m for_each]. unfold bind at 1.
  rewrite (H a z (or_introl eq_refl)).
  destruct (pure a z) as [z'|]; [|reflexivity].
  apply IH. intros b z0 Hb. apply H. now right.
Qed.

(** The call allocates one array, at the first free address, fills it as
    the threaded loops do, and leaves [df] and every other array alone. *)
Lemma run_generate_spec start end_ clinics admit_type (s : State) :
  run_generate_patient_volume_heatmap start end_ clinics admit_type s
  = Some ({| ref_x := x_axis; ref_y := day_list;
             ref_z := List.length (heap s) |},
          {| global_df := global_df s;
             heap := heap s
                     ++ [build 7 24
                           (float_cell (global_df s) start end_ clinics
                              admit_type)] |}).
Proof.
  destruct s as [df h].
  unfold run_generate_patient_volume_heatmap. cbv zeta.
  unfold bind at 1. unfold np_zeros. cbn [heap global_df].
  unfold bind at 1.
  rewrite (for_m_last _
             (fun clinic z =>
                let filtered_df := filtered_frame df start end_ clinic admit_type in
                for_each (fun '(ind_y, day) z =>
                  for_each (fun '(ind_x, x_val) z =>
                    iadd z ind_y ind_x (sum_of_record filtered_df day x_val))
                    (enumerate x_axis) z)
                  (enumerate day_list) z)
             df h clinics).
  - rewrite heatmap_loops_update. reflexivity.
  - intros clinic z _. unfold bind at 1, read_df. cbn [global_df]. cbv zeta.
    apply for_m_last. intros [ind_y day] z1 _.
    apply for_m_last. intros [ind_x x_val] z2 _.
    apply iadd_at_last.
Qed.

Lemma run_table_spec clinics admit_type (s : State) :
  run_update_patient_volume_table clinics admit_type s
  = Some (update_patient_volume_table (global_df s) clinics admit_type, s).
Proof.
  unfold run_update_patient_volume_table, update_patient_volume_table.
  destruct clinics as [|c0 clinics0]; [reflexivity|].
  generalize (c0 :: clinics0). intros clinics.
  induction clinics as [|clinic clinics IH]; [reflexivity|].
  cbn [map_m map]. unfold bind at 1. unfold bind at 1, read_df at 1.
  unfold ret at 1. unfold bind at 1. rewrite IH. reflexivity.
Qed.

End Statements.

(** C8.  Run one after the other against the state of the module, the two
    callbacks never change the table bound to [df].  Each run of the
    heatmap callback allocates its own array: the figure of the first run
    is left as it was by the later runs, the second run returns a figure
    equal to it, cell for cell, and it is the figure computed from the
    table; the arrays that existed before are untouched.  Two runs of the
    table callback return the same table. *)
Theorem C8_same_result_and_table_untouched :
  forall s start end_ clinics admit_type,
  exists fig1 s1 fig2 s2 tab1 s3 tab2 s4,
    run_update_heatmap start end_ clinics admit_type s = Some (fig1, s1)
    /\ run_update_heatmap start end_ clinics admit_type s1 = Some (fig2, s2)
    /\ run_update_patient_volume_table clinics admit_type s2 = Some (tab1, s3)
    /\ run_update_patient_volume_table clinics admit_type s3 = Some (tab2, s4)
    /\ global_df s1 = global_df s
    /\ global_df s2 = global_df s
    /\ global_df s3 = global_df s
    /\ global_df s4 = global_df s
    /\ deref s1 fig1
       = update_heatmap (global_df s) start end_ clinics admit_type
    /\ deref s4 fig1 = deref s1 fig1
    /\ deref s4 fig2 = deref s4 fig1
    /\ ref_z fig2 <> ref_z fig1
    /\ tab1 = update_patient_volume_table (global_df s) clinics admit_type
    /\ tab2 = tab1
    /\ (forall a, (a < List.length (heap s))%nat ->
          nth_error (heap s4) a = nth_error (heap s) a).
Proof.
  intros s start end_ clinics admit_type.
  unfold run_update_heatmap. cbv zeta.
  do 8 eexists.
  split; [apply run_generate_spec|].
  split; [apply run_generate_spec|].
  split; [apply run_table_spec|].
  split; [apply run_table_spec|].
  cbn [global_df heap].
  repeat (split; [reflexivity|]).
  set (z := build 7 24
              (float_cell (global_df s) (midnight start) (midnight end_)
                 clinics admit_type)).
  assert (E1 : nth_error (heap s ++ [z]) (List.length (heap s)) = Some z)
    by apply nth_error_app_last.
  assert (E2 : nth_error ((heap s ++ [z]) ++ [z]) (List.length (heap s))
               = Some z).
  { rewrite nth_error_app1 by (rewrite length_app; simpl; lia). exact E1. }
  assert (E3 : nth_error ((heap s ++ [z]) ++ [z]) (List.length (heap s ++ [z]))
               = Some z)
    by apply nth_error_app_last.
  split.
  { unfold deref. cbn [ref_z ref_x ref_y heap]. rewrite E1.
    unfold update_heatmap. now rewrite heatmap_closed_form. }
  split.
  { unfold deref. cbn [ref_z ref_x ref_y heap]. now rewrite E1, E2. }
  split.
  { unfold deref. cbn [ref_z ref_x ref_y heap]. now rewrite E2, E3. }
  split.
  { cbn [ref_z]. rewrite length_app. simpl. lia. }
  split; [reflexivity|]. split; [reflexivity|].
  intros a Ha. rewrite !nth_error_app1; [reflexivity | lia |].
  rewrite length_app. lia.
Qed.
(* ================================================================== *)
(** ** Beyond the claims: buckets, hours and days                        *)
(* ================================================================== *)

Section Buckets.

Lemma in_range (a b h : Z) : a <= h < b -> In h (range a b).
Proof.
  intros H. unfold range. apply in_map_iff.
  exists (Z.to_nat (h - a)). split; [lia|].
  apply in_seq. lia.
Qed.

Lemma all_hours_spec (test : Z -> bool) (h : Z) :
  all_hours test = true -> 0 <= h < 24 -> test h = true.
Proof.
  unfold all_hours. intros H Hh.
  rewrite forallb_forall in H. now apply H, in_range.
Qed.

Lemma all_weekdays_spec (test : Z -> bool) (w : Z) :
  all_weekdays test = true -> 0 <= w < 7 -> test w = true.
Proof.
  unfold all_weekdays. intros H Hw.
  rewrite forallb_forall in H. now apply H, in_range.
Qed.

Lemma hour_bounds (t : Z) : 0 <= hour t < 24.
Proof. unfold hour. apply Z.mod_pos_bound. lia. Qed.

Lemma weekday_bounds (t : Z) : 0 <= weekday t < 7.
Proof. unfold weekday. apply Z.mod_pos_bound. lia. Qed.

Lemma strftime_I_p_hour_label (t : Z) : strftime_I_p t = hour_label (hour t).
Proof. reflexivity. Qed.

(** Distinct hours have distinct labels. *)
Lemma hour_label_eqb (h h' : Z) :
  0 <= h < 24 -> 0 <= h' < 24 ->
  String.eqb (hour_label h) (hour_label h') = (h =? h').
Proof.
  intros Hh Hh'.
  assert (H : all_hours (fun a => all_hours (fun b =>
                Bool.eqb (String.eqb (hour_label a) (hour_label b)) (a =? b)))
              = true) by (vm_compute; reflexivity).
  apply (all_hours_spec _ h) in H; [|exact Hh].
  apply (all_hours_spec _ h') in H; [|exact Hh'].
  now apply Bool.eqb_prop in H.
Qed.

(** Distinct weekday numbers have distinct names. *)
Lemma weekday_name_eqb (w w' : Z) :
  0 <= w < 7 -> 0 <= w' < 7 ->
  String.eqb (weekday_name w) (weekday_name w') = (w =? w').
Proof.
  intros Hw Hw'.
  assert (H : all_weekdays (fun a => all_weekdays (fun b =>
                Bool.eqb (String.eqb (weekday_name a) (weekday_name b)) (a =? b)))
              = true) by (vm_compute; reflexivity).
  apply (all_weekdays_spec _ w) in H; [|exact Hw].
  apply (all_weekdays_spec _ w') in H; [|exact Hw'].
  now apply Bool.eqb_prop in H.
Qed.

(** Column [j] is the hour [7 + j]. *)
Lemma x_axis_nth (j : nat) :
  (j < 12)%nat -> nth_error x_axis j = Some (hour_label (7 + Z.of_nat j)).
Proof.
  intros Hj.
  do 12 (destruct j as [|j]; [vm_compute; reflexivity|]). lia.
Qed.

(** Row [i] is the weekday number [i]. *)
Lemma day_list_nth (i : nat) :
  (i < 7)%nat -> nth_error day_list i = Some (weekday_name (Z.of_nat i)).
Proof.
  intros Hi.
  do 7 (destruct i as [|i]; [vm_compute; reflexivity|]). lia.
Qed.

(** The hour label of a time is a column exactly from 07:00:00 to
    18:59:59. *)
Lemma hour_label_in_columns (h : Z) :
  0 <= h < 24 -> isin (hour_label h) x_axis = (7 <=? h) && (h <=? 18).
Proof.
  intros Hh.
  assert (H : all_hours (fun a =>
                Bool.eqb (isin (hour_label a) x_axis) ((7 <=? a) && (a <=? 18)))
              = true) by (vm_compute; reflexivity).
  apply (all_hours_spec _ h) in H; [|exact Hh].
  now apply Bool.eqb_prop in H.
Qed.

Lemma hour_of_seconds (s : Z) : hour (s * NS_PER_SECOND) = (s / 3600) mod 24.
Proof.
  unfold hour, seconds_of, NS_PER_SECOND. now rewrite Z.div_mul by lia.
Qed.

Lemma weekday_of_seconds (s : Z) :
  weekday (s * NS_PER_SECOND) = (s / SECONDS_PER_DAY + 3) mod 7.
Proof.
  unfold weekday, seconds_of, NS_PER_SECOND. now rewrite Z.div_mul by lia.
Qed.

Lemma in_columns_visible_hour (c : CsvRow) :
  in_columns (load_row c) = visible_hour c.
Proof.
  unfold in_columns, visible_hour, csv_hour. cbn [load_row Check_In_Hour].
  rewrite strftime_I_p_hour_label, hour_label_in_columns by apply hour_bounds.
  now rewrite hour_of_seconds.
Qed.

End Buckets.

(** X1.  Bucket alignment.  As long as the cells stay where float64
    additions are exact, the cell of row [i] and column [j] of the array
    computed from a loaded table, for [i < 7] and [j < 12], holds the counts
    of the records checked in on weekday number [i] (Monday is 0) during the
    hour [7 + j], with a selected admit source and a time within the bounds,
    each taken once per occurrence of its clinic in the selection. *)
Theorem X1_bucket_alignment :
  forall csv start end_ clinics admit_type i j,
    fits_float64 (load csv) clinics ->
    (i < 7)%nat -> (j < 12)%nat ->
    exists fig,
      generate_patient_volume_heatmap (load csv) start end_ clinics admit_type
      = Some fig
      /\ cell (fig_z fig) i j
         = Finite (bucket_cell csv start end_ clinics admit_type i j).
Proof.
  intros csv start end_ clinics admit_type i j Hfit Hi Hj.
  eexists. split; [now apply heatmap_exact_form|]. cbn [fig_z].
  unfold build_exact. rewrite build_cell by lia. f_equal.
  unfold heatmap_cell.
  rewrite (day_list_nth i Hi), (x_axis_nth j Hj), sum_clinic_cell.
  unfold weighted_cell, bucket_cell.
  apply sum_map_ext. intros r Hr.
  apply in_load in Hr. destruct Hr as [c [_ ->]].
  cbn [load_row Days_of_Wk Check_In_Hour Check_In_Time Admit_Source].
  unfold strftime_A. rewrite strftime_I_p_hour_label.
  rewrite weekday_name_eqb by (try apply weekday_bounds; lia).
  rewrite hour_label_eqb by (try apply hour_bounds; lia).
  reflexivity.
Qed.

Lemma X1_witness :
  fits_float64 (load csv_week) ["A"; "B"]%string
  /\ (0 < 7)%nat /\ (1 < 12)%nat
  /\ exists fig,
       generate_patient_volume_heatmap (load csv_week)
         (midnight (date 2022 5 1)) (midnight (date 2022 5 8))
         ["A"; "B"]%string ["X"; "Y"]%string
       = Some fig
       /\ cell (fig_z fig) 0 1
          = Finite (bucket_cell csv_week (midnight (date 2022 5 1))
                      (midnight (date 2022 5 8)) ["A"; "B"]%string
                      ["X"; "Y"]%string 0 1).
Proof.
  assert (Hf : fits_float64 (load csv_week) ["A"; "B"]%string)
    by (vm_compute; discriminate).
  assert (H0 : (0 < 7)%nat) by lia.
  assert (H1 : (1 < 12)%nat) by lia.
  split; [exact Hf|]. split; [exact H0|]. split; [exact H1|].
  exact (X1_bucket_alignment csv_week (midnight (date 2022 5 1))
           (midnight (date 2022 5 8)) ["A"; "B"]%string ["X"; "Y"]%string
           0%nat 1%nat Hf H0 H1).
Defined.

(** X2.  Visible hours.  A record of the table has its hour label among the
    twelve columns exactly when it was checked in from 07:00:00 to 18:59:59;
    check-ins at any other hour never appear in the heatmap: the figure is
    the one of the file without them. *)
Theorem X2_visible_hours :
  forall csv start end_ clinics admit_type,
    (forall c : CsvRow,
       in_columns (load_row c) = true
       <-> 7 <= (csv_check_in_time c / 3600) mod 24 <= 18)
    /\ generate_patient_volume_heatmap (load csv) start end_ clinics admit_type
       = generate_patient_volume_heatmap (load (filter visible_hour csv))
           start end_ clinics admit_type.
Proof.
  intros csv start end_ clinics admit_type. split.
  - intros c. rewrite in_columns_visible_hour.
    unfold visible_hour, csv_hour.
    rewrite andb_true_iff, !Z.leb_le. reflexivity.
  - apply heatmap_drop_records. intros c x_val _ Hk Hx.
    rewrite <- in_columns_visible_hour in Hk. unfold in_columns in Hk.
    rewrite (label_no_column _ _ Hk Hx). apply andb_false_r.
Qed.

Section Selections.

(** A record outside the days from [start] to [end_ - 1] passes the dates
    only at 00:00:00 of the end day, with a label that is no column. *)
Lemma outside_days_no_cell c start end_ x_val :
  In x_val x_axis ->
  csv_between_days start end_ c = false ->
  in_dates (midnight start) (midnight end_) (load_row c)
  && String.eqb (Check_In_Hour (load_row c)) x_val = false.
Proof.
  intros Hx Hout.
  destruct (in_dates (midnight start) (midnight end_) (load_row c)) eqn:Hin;
    [|reflexivity].
  assert (Ht : Check_In_Time (load_row c) = midnight end_).
  { unfold in_dates in Hin. apply andb_true_iff in Hin.
    rewrite !Z.leb_le in Hin.
    unfold csv_between_days in Hout. apply andb_false_iff in Hout.
    rewrite Z.leb_gt, Z.ltb_ge in Hout.
    cbn [load_row Check_In_Time] in *.
    unfold slice_bound_left, slice_bound_right, midnight, SECONDS_PER_DAY,
      NS_PER_SECOND in *.
    lia. }
  cbn [load_row Check_In_Hour Check_In_Time] in *.
  rewrite Ht, strftime_I_p_at_midnight. cbn [andb].
  apply label_no_column; [reflexivity | exact Hx].
Qed.

Lemma exact_sum_app (l1 l2 : list Z) :
  exact_sum (l1 ++ l2) = exact_sum l1 + exact_sum l2.
Proof.
  induction l1 as [|v l1 IH]; simpl; [reflexivity|].
  rewrite IH. lia.
Qed.

Lemma cell_build_exact (rows cols : nat) (f : nat -> nat -> Z) (i j : nat) :
  cell (build_exact rows cols f) i j
  = Finite (if Nat.ltb i rows && Nat.ltb j cols then f i j else 0).
Proof.
  unfold build_exact. rewrite cell_build.
  now destruct (Nat.ltb i rows && Nat.ltb j cols).
Qed.

End Selections.

(** X3.  The end day is left out of the array.  For a loaded table the
    figure returned for the dates [start] and [end_] is the one of the
    records checked in from the start day to the day before the end day:
    dropping every other record from the file changes nothing.  (The one
    instant of the end day that passes the slice, 00:00:00, has the label
    12 AM, which is no column.) *)
Theorem X3_end_day_left_out :
  forall csv start end_ clinics admit_type,
    update_heatmap (load csv) start end_ clinics admit_type
    = update_heatmap (load (filter (csv_between_days start end_) csv))
        start end_ clinics admit_type.
Proof.
  intros csv start end_ clinics admit_type. unfold update_heatmap.
  apply heatmap_drop_records. intros c x_val _ Hk Hx.
  now apply outside_days_no_cell.
Qed.

(** X4.  A one-day range shows nothing.  When the start date and the end
    date are the same day, the figure of a loaded table is the all-zero
    array, whatever the clinics and categories. *)
Theorem X4_same_start_and_end_is_empty :
  forall csv d clinics admit_type,
    update_heatmap (load csv) d d clinics admit_type
    = Some {| fig_x := x_axis; fig_y := day_list; fig_z := zeros 7 24 |}.
Proof.
  intros csv d clinics admit_type. unfold update_heatmap.
  apply heatmap_all_zero. intros clinic day x_val _ Hx.
  apply clinic_cell_test_false. intros r Hr.
  apply in_load in Hr. destruct Hr as [c [_ ->]].
  assert (Hout : csv_between_days d d c = false).
  { unfold csv_between_days.
    destruct (Z.leb_spec (d * SECONDS_PER_DAY) (csv_check_in_time c));
      [|reflexivity].
    destruct (Z.ltb_spec (csv_check_in_time c) (d * SECONDS_PER_DAY));
      [lia | reflexivity]. }
  pose proof (outside_days_no_cell c d d x_val Hx Hout) as Hf.
  destruct (clinic_mask clinic admit_type (load_row c)),
           (in_dates (midnight d) (midnight d) (load_row c)),
           (String.eqb (Days_of_Wk (load_row c)) day),
           (String.eqb (Check_In_Hour (load_row c)) x_val);
    try reflexivity; discriminate.
Qed.

(** X5.  Overlay.  As long as the cells stay where float64 additions are
    exact, the figure of two selections put one after the other has, in
    every cell, the sum of the cells of the two figures: clinics are added
    on top of each other, never replaced. *)
Theorem X5_selections_overlay :
  forall df start end_ clinics1 clinics2 admit_type,
    fits_float64 df (clinics1 ++ clinics2) ->
    exists fig1 fig2 fig,
      generate_patient_volume_heatmap df start end_ clinics1 admit_type = Some fig1
      /\ generate_patient_volume_heatmap df start end_ clinics2 admit_type = Some fig2
      /\ generate_patient_volume_heatmap df start end_ (clinics1 ++ clinics2)
           admit_type = Some fig
      /\ forall i j,
         exists a b,
           cell (fig_z fig1) i j = Finite a
           /\ cell (fig_z fig2) i j = Finite b
           /\ cell (fig_z fig) i j = Finite (a + b).
Proof.
  intros df start end_ clinics1 clinics2 admit_type Hfit.
  do 3 eexists.
  split; [apply heatmap_exact_form; eapply fits_float64_app_l; exact Hfit|].
  split; [apply heatmap_exact_form; eapply fits_float64_app_r; exact Hfit|].
  split; [now apply heatmap_exact_form|].
  intros i j. cbn [fig_z]. do 2 eexists.
  split; [apply cell_build_exact|]. split; [apply cell_build_exact|].
  rewrite cell_build_exact. f_equal.
  destruct (Nat.ltb i 7 && Nat.ltb j 24); [|reflexivity].
  unfold heatmap_cell.
  destruct (nth_error day_list i) as [day|]; [|reflexivity].
  destruct (nth_error x_axis j) as [x_val|]; [|reflexivity].
  now rewrite map_app, exact_sum_app.
Qed.

Lemma X5_witness :
  fits_float64 (load csv_week) (["A"]%string ++ ["B"]%string)
  /\ exists fig1 fig2 fig,
       generate_patient_volume_heatmap (load csv_week)
         (midnight (date 2022 5 1)) (midnight (date 2022 5 8))
         ["A"]%string ["X"; "Y"]%string = Some fig1
       /\ generate_patient_volume_heatmap (load csv_week)
            (midnight (date 2022 5 1)) (midnight (date 2022 5 8))
            ["B"]%string ["X"; "Y"]%string = Some fig2
       /\ generate_patient_volume_heatmap (load csv_week)
            (midnight (date 2022 5 1)) (midnight (date 2022 5 8))
            (["A"]%string ++ ["B"]%string) ["X"; "Y"]%string = Some fig
       /\ forall i j,
            exists a b,
              cell (fig_z fig1) i j = Finite a
              /\ cell (fig_z fig2) i j = Finite b
              /\ cell (fig_z fig) i j = Finite (a + b).
Proof.
  assert (Hf : fits_float64 (load csv_week) (["A"]%string ++ ["B"]%string))
    by (vm_compute; discriminate).
  split; [exact Hf|].
  exact (X5_selections_overlay (load csv_week) _ _
           ["A"]%string ["B"]%string ["X"; "Y"]%string Hf).
Defined.

Section MoreSelections.

Lemma isin_ext (v : string) (l l' : list string) :
  (forall a, In a l <-> In a l') -> isin v l = isin v l'.
Proof.
  intros H.
  destruct (isin v l) eqn:E, (isin v l') eqn:E'; try reflexivity.
  - apply isin_In, H, isin_In in E. congruence.
  - apply isin_In, H, isin_In in E'. congruence.
Qed.

Lemma clinic_total_ext df admit_type admit_type' clinic :
  (forall a, In a admit_type <-> In a admit_type') ->
  clinic_total df admit_type clinic = clinic_total df admit_type' clinic.
Proof.
  intros H. unfold clinic_total. apply sum_map_ext. intros r _.
  now rewrite (isin_ext _ _ _ H).
Qed.

Lemma clinic_total_unknown df admit_type clinic :
  (forall r, In r df -> Clinic_Name r <> clinic) ->
  clinic_total df admit_type clinic = 0.
Proof.
  intros H. unfold clinic_total.
  transitivity (exact_sum (map (fun _ : Row => 0) df)); [|apply sum_map_zero].
  apply sum_map_ext. intros r Hr.
  destruct (String.eqb_spec (Clinic_Name r) clinic) as [E|_]; [|reflexivity].
  now destruct (H r Hr).
Qed.

Lemma clinic_cell_unknown df start end_ admit_type day x_val clinic :
  (forall r, In r df -> Clinic_Name r <> clinic) ->
  clinic_cell df start end_ admit_type day x_val clinic = 0.
Proof.
  intros H. apply clinic_cell_test_false. intros r Hr. unfold clinic_mask.
  destruct (String.eqb_spec (Clinic_Name r) clinic) as [E|_]; [|reflexivity].
  now destruct (H r Hr).
Qed.

(** The sum of all cells, record by record: each record with a selected
    admit source and a time within the bounds counts once per occurrence of
    its clinic, of its weekday among the rows and of its hour label among
    the columns. *)
Lemma heatmap_total_records df start end_ clinics admit_type :
  total (build_exact 7 24 (heatmap_cell df start end_ clinics admit_type))
  = exact_sum (map (fun r =>
                if isin (Admit_Source r) admit_type && in_dates start end_ r
                then Z.of_nat (count_occ string_dec day_list (Days_of_Wk r))
                     * (Z.of_nat (count_occ string_dec x_axis (Check_In_Hour r))
                        * (occurrences clinics r * Number_of_Records r))
                else 0) df).
Proof.
  rewrite heatmap_total. unfold weighted_cell.
  rewrite (sum_map_ext _ _ day_list
             (fun day _ => sum_map_exchange _ x_axis df)).
  rewrite sum_map_exchange.
  apply sum_map_ext. intros r _.
  rewrite (sum_map_ext _ _ day_list
             (fun day _ =>
                sum_indicator_and
                  (isin (Admit_Source r) admit_type && in_dates start end_ r
                   && String.eqb (Days_of_Wk r) day)
                  (Check_In_Hour r)
                  (occurrences clinics r * Number_of_Records r) x_axis)).
  apply (sum_indicator_and
           (isin (Admit_Source r) admit_type && in_dates start end_ r)
           (Days_of_Wk r)).
Qed.

(** The sum of the totals of the selected clinics, record by record. *)
Lemma clinic_totals_sum_records df clinics admit_type :
  exact_sum (map (clinic_total df admit_type) clinics)
  = exact_sum (map (fun r => if isin (Admit_Source r) admit_type
                             then occurrences clinics r * Number_of_Records r
                             else 0) df).
Proof.
  unfold clinic_total. rewrite sum_map_exchange.
  apply sum_map_ext. intros r _. unfold occurrences.
  destruct (isin (Admit_Source r) admit_type).
  - rewrite <- sum_indicator. apply sum_map_ext. intros clinic _.
    now rewrite andb_true_r.
  - transitivity (exact_sum (map (fun _ : string => 0) clinics));
      [|apply sum_map_zero].
    apply sum_map_ext. intros clinic _. now rewrite andb_false_r.
Qed.

Lemma table_totals_exact df clinics admit_type :
  map snd (map (fun clinic => (clinic, clinic_total df admit_type clinic)) clinics)
  = map (clinic_total df admit_type) clinics.
Proof. rewrite map_map. reflexivity. Qed.

Lemma occurrences_nonneg clinics r : 0 <= occurrences clinics r.
Proof. unfold occurrences. lia. Qed.

End MoreSelections.

(** X6.  Unknown clinic.  A selected clinic that no record of the table
    belongs to raises no error: it leaves the figure as it is without it,
    and it gets a row of its own in the table, with total 0. *)
Theorem X6_unknown_clinic :
  forall df start end_ clinic clinics admit_type,
    (forall r, In r df -> Clinic_Name r <> clinic) ->
    generate_patient_volume_heatmap df start end_ (clinic :: clinics) admit_type
    = generate_patient_volume_heatmap df start end_ clinics admit_type
    /\ update_patient_volume_table df (clinic :: clinics) admit_type
       = (clinic, 0) :: update_patient_volume_table df clinics admit_type.
Proof.
  intros df start end_ clinic clinics admit_type H. split.
  - rewrite !heatmap_closed_form. do 2 f_equal.
    apply build_ext. intros i j _ _. unfold float_cell.
    destruct (nth_error day_list i) as [day|]; [|reflexivity].
    destruct (nth_error x_axis j) as [x_val|]; [|reflexivity].
    cbn [fold_left]. unfold accumulate at 2.
    now rewrite (clinic_cell_unknown df start end_ admit_type day x_val clinic H),
      add_zero_zero.
  - rewrite !table_closed_form. cbn [map].
    now rewrite (clinic_total_unknown df admit_type clinic H).
Qed.

Lemma X6_witness :
  (forall r, In r (load csv_week) -> Clinic_Name r <> "Z"%string)
  /\ update_patient_volume_table (load csv_week) ["Z"; "A"]%string ["X"]%string
     = ("Z"%string, 0)
       :: update_patient_volume_table (load csv_week) ["A"]%string ["X"]%string.
Proof.
  assert (H : forall r, In r (load csv_week) -> Clinic_Name r <> "Z"%string).
  { intros r Hr.
    repeat (destruct Hr as [<-|Hr]; [vm_compute; discriminate|]).
    destruct Hr. }
  split; [exact H|].
  exact (proj2 (X6_unknown_clinic (load csv_week) 0 0 "Z"%string
                  ["A"]%string ["X"]%string H)).
Defined.

(** X7.  Categories form a set.  The figure and the table depend on the
    category selection only through the categories it contains: repeating a
    category or reordering the selection changes nothing (unlike a repeated
    clinic, which is counted again). *)
Theorem X7_categories_as_a_set :
  forall df start end_ clinics admit_type admit_type',
    (forall a, In a admit_type <-> In a admit_type') ->
    generate_patient_volume_heatmap df start end_ clinics admit_type
    = generate_patient_volume_heatmap df start end_ clinics admit_type'
    /\ update_patient_volume_table df clinics admit_type
       = update_patient_volume_table df clinics admit_type'.
Proof.
  intros df start end_ clinics admit_type admit_type' H. split.
  - apply heatmap_clinic_ext. intros clinic day x_val _ _.
    unfold clinic_cell. f_equal. f_equal. apply filter_ext. intros r.
    unfold clinic_mask. now rewrite (isin_ext _ _ _ H).
  - rewrite !table_closed_form. apply map_ext. intros clinic.
    now rewrite (clinic_total_ext df _ _ clinic H).
Qed.

Lemma X7_witness :
  (forall a, In a ["X"; "Y"; "X"]%string <-> In a ["Y"; "X"]%string)
  /\ update_patient_volume_table (load csv_week) ["A"]%string ["X"; "Y"; "X"]%string
     = update_patient_volume_table (load csv_week) ["A"]%string ["Y"; "X"]%string.
Proof.
  assert (H : forall a, In a ["X"; "Y"; "X"]%string <-> In a ["Y"; "X"]%string)
    by (intros a; simpl; tauto).
  split; [exact H|].
  exact (proj2 (X7_categories_as_a_set (load csv_week) 0 0 ["A"]%string
                  ["X"; "Y"; "X"]%string ["Y"; "X"]%string H)).
Defined.

(** X8.  A wider date range never lowers a cell.  Over records with
    non-negative counts, and as long as the cells stay where float64
    additions are exact, moving the start bound earlier or the end bound
    later leaves every cell of the array at least as large as before. *)
Theorem X8_wider_range_more_volume :
  forall csv start end_ start' end_' clinics admit_type,
    counts_nonneg csv ->
    fits_float64 (load csv) clinics ->
    start' <= start -> end_ <= end_' ->
    exists fig fig',
      generate_patient_volume_heatmap (load csv) start end_ clinics admit_type
      = Some fig
      /\ generate_patient_volume_heatmap (load csv) start' end_' clinics admit_type
         = Some fig'
      /\ forall i j,
         exists a a',
           cell (fig_z fig) i j = Finite a
           /\ cell (fig_z fig') i j = Finite a'
           /\ a <= a'.
Proof.
  intros csv start end_ start' end_' clinics admit_type Hnn Hfit Hs He.
  do 2 eexists.
  split; [now apply heatmap_exact_form|].
  split; [now apply heatmap_exact_form|].
  intros i j. cbn [fig_z]. do 2 eexists.
  split; [apply cell_build_exact|]. split; [apply cell_build_exact|].
  destruct (Nat.ltb i 7 && Nat.ltb j 24); [|lia].
  unfold heatmap_cell.
  destruct (nth_error day_list i) as [day|]; [|lia].
  destruct (nth_error x_axis j) as [x_val|]; [|lia].
  rewrite !sum_clinic_cell. unfold weighted_cell.
  apply sum_map_le. intros r Hr.
  pose proof (loaded_count_nonneg csv r Hnn Hr) as Hn.
  pose proof (occurrences_nonneg clinics r) as Ho.
  assert (Hm : 0 <= occurrences clinics r * Number_of_Records r)
    by now apply Z.mul_nonneg_nonneg.
  destruct (in_dates start end_ r) eqn:Hin.
  - rewrite (in_dates_true start' end_' r).
    + lia.
    + unfold in_dates in Hin. apply andb_true_iff in Hin.
      rewrite !Z.leb_le in Hin. unfold slice_bound_left in *. lia.
    + unfold in_dates in Hin. apply andb_true_iff in Hin.
      rewrite !Z.leb_le in Hin. unfold slice_bound_right in *. lia.
  - rewrite andb_false_r. cbn [andb].
    destruct (isin (Admit_Source r) admit_type && in_dates start' end_' r
              && String.eqb (Days_of_Wk r) day
              && String.eqb (Check_In_Hour r) x_val); lia.
Qed.

Lemma X8_witness :
  counts_nonneg csv_week
  /\ fits_float64 (load csv_week) ["A"; "B"]%string
  /\ midnight (date 2022 5 1) <= midnight (date 2022 5 2)
  /\ midnight (date 2022 5 3) <= midnight (date 2022 5 8)
  /\ exists fig fig',
       generate_patient_volume_heatmap (load csv_week)
         (midnight (date 2022 5 2)) (midnight (date 2022 5 3))
         ["A"; "B"]%string ["X"; "Y"]%string = Some fig
       /\ generate_patient_volume_heatmap (load csv_week)
            (midnight (date 2022 5 1)) (midnight (date 2022 5 8))
            ["A"; "B"]%string ["X"; "Y"]%string = Some fig'
       /\ forall i j,
            exists a a',
              cell (fig_z fig) i j = Finite a
              /\ cell (fig_z fig') i j = Finite a'
              /\ a <= a'.
Proof.
  assert (Hnn : counts_nonneg csv_week) by (repeat constructor; simpl; lia).
  assert (Hf : fits_float64 (load csv_week) ["A"; "B"]%string)
    by (vm_compute; discriminate).
  assert (Hs : midnight (date 2022 5 1) <= midnight (date 2022 5 2))
    by (vm_compute; discriminate).
  assert (He : midnight (date 2022 5 3) <= midnight (date 2022 5 8))
    by (vm_compute; discriminate).
  split; [exact Hnn|]. split; [exact Hf|]. split; [exact Hs|]. split; [exact He|].
  exact (X8_wider_range_more_volume csv_week _ _ _ _
           ["A"; "B"]%string ["X"; "Y"]%string Hnn Hf Hs He).
Defined.

(** X9.  The table bounds the array.  Over records with non-negative counts,
    and as long as the cells stay where float64 additions are exact, the
    sum of all cells of the array is at most the sum of the totals of the
    table for the same clinics and categories: the table also counts the
    records outside the dates and outside the twelve hours. *)
Theorem X9_cells_at_most_table :
  forall csv start end_ clinics admit_type,
    counts_nonneg csv ->
    fits_float64 (load csv) clinics ->
    exists fig,
      generate_patient_volume_heatmap (load csv) start end_ clinics admit_type
      = Some fig
      /\ total (fig_z fig)
         <= exact_sum
              (map snd
                 (update_patient_volume_table (load csv) clinics admit_type)).
Proof.
  intros csv start end_ clinics admit_type Hnn Hfit.
  eexists. split; [now apply heatmap_exact_form|]. cbn [fig_z].
  rewrite table_exact_form_selection by assumption.
  rewrite table_totals_exact.
  rewrite heatmap_total_records, clinic_totals_sum_records.
  apply sum_map_le. intros r Hr.
  pose proof (loaded_count_nonneg csv r Hnn Hr) as Hn.
  pose proof (occurrences_nonneg clinics r) as Ho.
  assert (Hm : 0 <= occurrences clinics r * Number_of_Records r)
    by now apply Z.mul_nonneg_nonneg.
  rewrite (NoDup_count_occ_isin _ _ x_axis_NoDup).
  rewrite (NoDup_count_occ_isin _ _ day_list_NoDup).
  destruct (isin (Admit_Source r) admit_type), (in_dates start end_ r),
           (isin (Days_of_Wk r) day_list), (isin (Check_In_Hour r) x_axis);
    cbv beta iota delta [andb]; lia.
Qed.

Lemma X9_witness :
  counts_nonneg csv_week
  /\ fits_float64 (load csv_week) ["A"; "B"]%string
  /\ exists fig,
       generate_patient_volume_heatmap (load csv_week)
         (midnight (date 2022 5 1)) (midnight (date 2022 5 8))
         ["A"; "B"]%string ["X"; "Y"]%string = Some fig
       /\ total (fig_z fig)
          <= exact_sum
               (map snd
                  (update_patient_volume_table (load csv_week)
                     ["A"; "B"]%string ["X"; "Y"]%string)).
Proof.
  assert (Hnn : counts_nonneg csv_week) by (repeat constructor; simpl; lia).
  assert (Hf : fits_float64 (load csv_week) ["A"; "B"]%string)
    by (vm_compute; discriminate).
  split; [exact Hnn|]. split; [exact Hf|].
  exact (X9_cells_at_most_table csv_week _ _
           ["A"; "B"]%string ["X"; "Y"]%string Hnn Hf).
Defined.

Section DropdownLists.

Lemma unique_from_In (seen values : list string) (v : string) :
  In v (unique_from seen values) <-> In v values /\ ~ In v seen.
Proof.
  revert seen. induction values as [|a rest IH]; intros seen; simpl.
  - tauto.
  - destruct (isin a seen) eqn:E.
    + apply isin_In in E. rewrite IH. split.
      * intros [H1 H2]. tauto.
      * intros [[->|H1] H2]; [contradiction | tauto].
    + assert (Ha : ~ In a seen).
      { intros H. apply isin_In in H. congruence. }
      simpl. rewrite IH. simpl. split.
      * intros [->|[H1 H2]]; [tauto|]. split; [tauto|]. tauto.
      * intros [[->|H1] H2]; [tauto|].
        destruct (string_dec a v) as [->|Hne]; [tauto|]. right. tauto.
Qed.

Lemma unique_from_NoDup (seen values : list string) :
  NoDup (unique_from seen values).
Proof.
  revert seen. induction values as [|a rest IH]; intros seen; simpl.
  - constructor.
  - destruct (isin a seen); [apply IH|].
    constructor; [|apply IH].
    rewrite unique_from_In. simpl. tauto.
Qed.

Lemma unique_In (values : list string) (v : string) :
  In v (unique values) <-> In v values.
Proof. unfold unique. rewrite unique_from_In. simpl. tauto. Qed.

Lemma unique_NoDup (values : list string) : NoDup (unique values).
Proof. apply unique_from_NoDup. Qed.

Lemma unique_head (a : string) (rest : list string) :
  nth_error (unique (a :: rest)) 0 = Some a.
Proof. reflexivity. Qed.

Lemma count_occ_unique (values : list string) (v : string) :
  In v values -> count_occ string_dec (unique values) v = 1%nat.
Proof.
  intros H. apply NoDup_count_occ'; [apply unique_NoDup|].
  now apply unique_In.
Qed.

End DropdownLists.

(** X10.  Everything selected.  With all the clinics of [clinic_list] and
    all the categories of [admit_list] selected, and counts that cannot
    overflow an int64, the totals of the table add up to the sum of the
    counts of all records of the table: every record is counted, and
    counted once. *)
Theorem X10_all_selected_counts_everything :
  forall df,
    fits_int64 df ->
    exact_sum
      (map snd (update_patient_volume_table df (clinic_list df) (admit_list df)))
    = exact_sum (map Number_of_Records df).
Proof.
  intros df Hfit.
  rewrite table_exact_form by assumption.
  rewrite table_totals_exact, clinic_totals_sum_records.
  apply sum_map_ext. intros r Hr.
  assert (Ha : isin (Admit_Source r) (admit_list df) = true).
  { apply isin_In. unfold admit_list. apply unique_In. now apply in_map. }
  rewrite Ha. unfold occurrences, clinic_list.
  rewrite count_occ_unique by now apply in_map.
  lia.
Qed.

Lemma X10_witness :
  fits_int64 (load csv_week)
  /\ exact_sum
       (map snd (update_patient_volume_table (load csv_week)
                   (clinic_list (load csv_week)) (admit_list (load csv_week))))
     = exact_sum (map Number_of_Records (load csv_week)).
Proof.
  assert (Hf : fits_int64 (load csv_week)) by reflexivity.
  split; [exact Hf|].
  exact (X10_all_selected_counts_everything (load csv_week) Hf).
Defined.

(** X11.  The dropdown lists.  [clinic_list] holds every clinic name of the
    table and nothing else, each once; [admit_list] does the same for the
    admit sources; and after loading, "Not Identified" is offered exactly
    when some record of the file has no admit source or has that very
    text. *)
Theorem X11_dropdown_lists :
  forall csv,
    NoDup (clinic_list (load csv))
    /\ NoDup (admit_list (load csv))
    /\ (forall v, In v (clinic_list (load csv))
                  <-> exists c, In c csv /\ csv_clinic_name c = v)
    /\ (forall v, In v (admit_list (load csv))
                  <-> exists c, In c csv /\ fillna (csv_admit_source c) = v)
    /\ (In "Not Identified"%string (admit_list (load csv))
        <-> exists c, In c csv
                      /\ (csv_admit_source c = None
                          \/ csv_admit_source c = Some "Not Identified"%string)).
Proof.
  intros csv.
  assert (Hc : forall v, In v (clinic_list (load csv))
                         <-> exists c, In c csv /\ csv_clinic_name c = v).
  { intros v. unfold clinic_list, load. rewrite unique_In, map_map, in_map_iff.
    split; intros [c [H1 H2]]; exists c; tauto. }
  assert (Ha : forall v, In v (admit_list (load csv))
                         <-> exists c, In c csv /\ fillna (csv_admit_source c) = v).
  { intros v. unfold admit_list, load. rewrite unique_In, map_map, in_map_iff.
    split; intros [c [H1 H2]]; exists c; tauto. }
  split; [apply unique_NoDup|]. split; [apply unique_NoDup|].
  split; [exact Hc|]. split; [exact Ha|].
  rewrite Ha. split; intros [c [Hin H]]; exists c; (split; [exact Hin|]).
  - destruct (csv_admit_source c) as [s|]; [right | left; reflexivity].
    simpl in H. now subst.
  - destruct H as [-> | ->]; reflexivity.
Qed.

(** X12.  The control card needs a record.  Building the card fails, on
    [clinic_list[0]], when the table is empty.  On any other table the clinic
    dropdown offers every clinic of [clinic_list] with its name as label and
    as value and starts with the clinic of the first record selected, and
    the category dropdown starts with nothing selected. *)
Theorem X12_control_card :
  generate_control_card [] = None
  /\ forall r rest,
      exists card,
        generate_control_card (r :: rest) = Some card
        /\ dd_value (clinic_select card) = [Clinic_Name r]
        /\ dd_value (admit_select card) = []
        /\ map opt_value (dd_options (clinic_select card))
           = clinic_list (r :: rest)
        /\ map opt_label (dd_options (clinic_select card))
           = clinic_list (r :: rest)
        /\ map opt_value (dd_options (admit_select card))
           = admit_list (r :: rest)
        /\ map opt_label (dd_options (admit_select card))
           = admit_list (r :: rest).
Proof.
  split; [reflexivity|].
  intros r rest.
  unfold generate_control_card, clinic_list at 1. cbn [map].
  rewrite unique_head. eexists. split; [reflexivity|].
  cbn [clinic_select admit_select dd_value dd_options].
  rewrite !map_map. cbn [opt_value opt_label]. rewrite !map_id.
  repeat (split; [reflexivity|]). reflexivity.
Qed.

Lemma clinic_total_no_category df clinic : clinic_total df [] clinic = 0.
Proof.
  unfold clinic_total.
  transitivity (exact_sum (map (fun _ : Row => 0) df)); [|apply sum_map_zero].
  apply sum_map_ext. intros r _. cbn [isin existsb]. now rewrite andb_false_r.
Qed.

(** X13.  The table on opening.  When the callback of the table runs with
    the values the control card starts with, the table has the single row
    of the clinic of the first record, with total 0: no category is
    selected at the start. *)
Theorem X13_table_on_opening :
  forall r rest,
  exists card,
    generate_control_card (r :: rest) = Some card
    /\ update_patient_volume_table (r :: rest)
         (dd_value (clinic_select card)) (dd_value (admit_select card))
       = [(Clinic_Name r, 0)].
Proof.
  intros r rest.
  unfold generate_control_card, clinic_list at 1. cbn [map].
  rewrite unique_head. eexists. split; [reflexivity|].
  cbn [clinic_select admit_select dd_value].
  rewrite table_closed_form. cbn [map]. do 2 f_equal.
  now rewrite clinic_total_no_category.
Qed.

Section ShiftsAndSlices.

Lemma weekday_shift_weeks (t k : Z) :
  weekday ((t + 7 * k * SECONDS_PER_DAY) * NS_PER_SECOND)
  = weekday (t * NS_PER_SECOND).
Proof.
  rewrite !weekday_of_seconds. unfold SECONDS_PER_DAY.
  replace (t + 7 * k * 86400) with (t + 7 * k * 86400 + 0) by lia.
  rewrite Z.add_0_r, Z.div_add by lia.
  replace (t / 86400 + 7 * k + 3) with (t / 86400 + 3 + k * 7) by lia.
  now rewrite Z.mod_add by lia.
Qed.

Lemma hour_shift_days (t n : Z) :
  hour ((t + n * SECONDS_PER_DAY) * NS_PER_SECOND) = hour (t * NS_PER_SECOND).
Proof.
  rewrite !hour_of_seconds. unfold SECONDS_PER_DAY.
  replace (t + n * 86400) with (t + n * 24 * 3600) by lia.
  rewrite Z.div_add by lia.
  now rewrite Z.mod_add by lia.
Qed.

Lemma in_dates_shift_days (start end_ n : Z) (c : CsvRow) :
  in_dates (midnight (start + n)) (midnight (end_ + n)) (load_row (shift_days n c))
  = in_dates (midnight start) (midnight end_) (load_row c).
Proof.
  unfold in_dates, slice_bound_left, slice_bound_right, midnight.
  cbn [load_row shift_days Check_In_Time csv_check_in_time].
  unfold SECONDS_PER_DAY, NS_PER_SECOND.
  f_equal.
  - destruct (Z.leb_spec ((start + n) * 86400 * 1000000000)
                ((csv_check_in_time c + n * 86400) * 1000000000)),
             (Z.leb_spec (start * 86400 * 1000000000)
                (csv_check_in_time c * 1000000000)); try reflexivity; lia.
  - destruct (Z.leb_spec ((csv_check_in_time c + n * 86400) * 1000000000)
                ((end_ + n) * 86400 * 1000000000 + 1000000000 - 1)),
             (Z.leb_spec (csv_check_in_time c * 1000000000)
                (end_ * 86400 * 1000000000 + 1000000000 - 1));
      try reflexivity; lia.
Qed.

Lemma StronglySorted_filter {A : Type} (R : A -> A -> Prop) (p : A -> bool)
    (l : list A) :
  StronglySorted R l -> StronglySorted R (filter p l).
Proof.
  induction 1 as [|a l Hs IH Hall]; simpl; [constructor|].
  destruct (p a); [|exact IH].
  constructor; [exact IH|].
  rewrite Forall_forall in *. intros b Hb.
  apply filter_In in Hb. now apply Hall.
Qed.

Lemma isin_singleton (v a : string) : isin v [a] = String.eqb v a.
Proof. unfold isin. simpl. now rewrite orb_false_r. Qed.

(** The total of a clinic splits over categories that are all different. *)
Lemma clinic_total_split df admit_type clinic :
  NoDup admit_type ->
  clinic_total df admit_type clinic
  = exact_sum (map (fun a => clinic_total df [a] clinic) admit_type).
Proof.
  intros ND. unfold clinic_total. rewrite sum_map_exchange.
  apply sum_map_ext. intros r _.
  destruct (String.eqb (Clinic_Name r) clinic); cbn [andb].
  - rewrite (sum_map_ext _ (fun a => if String.eqb (Admit_Source r) a
                                     then Number_of_Records r else 0))
      by (intros a _; now rewrite isin_singleton).
    rewrite sum_indicator, (NoDup_count_occ_isin _ _ ND).
    destruct (isin (Admit_Source r) admit_type); lia.
  - symmetry. apply sum_map_zero.
Qed.

End ShiftsAndSlices.

(** X14.  Totals split by category.  For a selection of categories that are
    all different, and counts that cannot overflow an int64, the total of a
    clinic is the sum, over the selected categories, of its total for that
    category alone. *)
Theorem X14_total_splits_by_category :
  forall df clinic admit_type,
    NoDup admit_type ->
    fits_int64 df ->
    update_patient_volume_table df [clinic] admit_type
    = [(clinic,
        exact_sum
          (map (fun a =>
                  exact_sum
                    (map snd (update_patient_volume_table df [clinic] [a])))
               admit_type))].
Proof.
  intros df clinic admit_type ND Hfit.
  rewrite table_exact_form by assumption. cbn [map]. do 2 f_equal.
  rewrite (clinic_total_split df admit_type clinic ND).
  apply sum_map_ext. intros a _.
  rewrite table_exact_form by assumption.
  cbn [map snd exact_sum fold_right]. lia.
Qed.

Lemma X14_witness :
  NoDup ["X"; "Y"]%string
  /\ fits_int64 (load csv_week)
  /\ update_patient_volume_table (load csv_week) ["A"]%string ["X"; "Y"]%string
     = [("A"%string,
         exact_sum
           (map (fun a =>
                   exact_sum
                     (map snd (update_patient_volume_table (load csv_week)
                                 ["A"]%string [a])))
                ["X"; "Y"]%string))].
Proof.
  assert (ND : NoDup ["X"; "Y"]%string).
  { apply NoDup_of_nodup. vm_compute. reflexivity. }
  assert (Hf : fits_int64 (load csv_week)) by reflexivity.
  split; [exact ND|]. split; [exact Hf|].
  exact (X14_total_splits_by_category (load csv_week) "A"%string
           ["X"; "Y"]%string ND Hf).
Defined.

(** X15.  Weekly pattern.  Moving every check-in of the file and both dates
    of the range by the same whole number of weeks gives the same figure:
    the array keeps the weekday and the hour of a check-in and nothing else
    of its date. *)
Theorem X15_shift_by_weeks :
  forall csv k start end_ clinics admit_type,
    update_heatmap (load (map (shift_days (7 * k)) csv))
      (start + 7 * k) (end_ + 7 * k) clinics admit_type
    = update_heatmap (load csv) start end_ clinics admit_type.
Proof.
  intros csv k start end_ clinics admit_type. unfold update_heatmap.
  apply heatmap_clinic_ext. intros clinic day x_val _ _.
  rewrite !clinic_cell_records, !sum_map_load, map_map.
  apply sum_map_ext. intros c _.
  rewrite in_dates_shift_days.
  unfold clinic_mask.
  cbn [load_row shift_days Admit_Source Days_of_Wk Check_In_Hour Clinic_Name
       Number_of_Records csv_admit_source csv_clinic_name csv_check_in_time
       csv_number_of_records].
  unfold strftime_A. rewrite !strftime_I_p_hour_label.
  now rewrite weekday_shift_weeks, hour_shift_days.
Qed.

(** X16.  The date slice.  The frame kept for a clinic is in ascending order
    of check-in time and holds, as many times as the table does, exactly the
    rows of the table that pass the clinic and category mask and whose time
    lies between the first nanosecond of the start label and the last
    nanosecond of the end label. *)
Theorem X16_date_slice :
  forall df start end_ clinic admit_type,
    StronglySorted le_time (filtered_frame df start end_ clinic admit_type)
    /\ Permutation
         (filtered_frame df start end_ clinic admit_type)
         (filter (fun r => clinic_mask clinic admit_type r
                           && ((start <=? Check_In_Time r)
                               && (Check_In_Time r <=? end_ + NS_PER_SECOND - 1)))
                 df).
Proof.
  intros df start end_ clinic admit_type. split.
  - unfold filtered_frame, loc_mask.
    rewrite slice_sorted by apply sort_values_strongly_sorted.
    apply StronglySorted_filter, sort_values_strongly_sorted.
  - apply filtered_frame_perm.
Qed.

Section AdjacentRanges.

(** For a column label, the test of a cell sees the dates of a loaded record
    as whole days, the end day excluded. *)
Lemma cell_test_between_days c start end_ admit_type day x_val :
  In x_val x_axis ->
  isin (Admit_Source (load_row c)) admit_type
  && in_dates (midnight start) (midnight end_) (load_row c)
  && String.eqb (Days_of_Wk (load_row c)) day
  && String.eqb (Check_In_Hour (load_row c)) x_val
  = csv_between_days start end_ c
    && (isin (Admit_Source (load_row c)) admit_type
        && String.eqb (Days_of_Wk (load_row c)) day
        && String.eqb (Check_In_Hour (load_row c)) x_val).
Proof.
  intros Hx. destruct (csv_between_days start end_ c) eqn:E.
  - assert (Hin : in_dates (midnight start) (midnight end_) (load_row c) = true).
    { unfold csv_between_days in E. apply andb_true_iff in E.
      rewrite Z.leb_le, Z.ltb_lt in E.
      apply in_dates_true;
        cbn [load_row Check_In_Time];
        unfold slice_bound_left, slice_bound_right, midnight, SECONDS_PER_DAY,
          NS_PER_SECOND in *; lia. }
    rewrite Hin, andb_true_r. reflexivity.
  - pose proof (outside_days_no_cell c start end_ x_val Hx E) as Hf.
    destruct (isin (Admit_Source (load_row c)) admit_type),
             (in_dates (midnight start) (midnight end_) (load_row c)),
             (String.eqb (Days_of_Wk (load_row c)) day),
             (String.eqb (Check_In_Hour (load_row c)) x_val);
      try reflexivity; discriminate.
Qed.

Lemma between_days_split start middle end_ c :
  start <= middle -> middle <= end_ ->
  csv_between_days start end_ c
  = csv_between_days start middle c || csv_between_days middle end_ c.
Proof.
  intros H1 H2. unfold csv_between_days, SECONDS_PER_DAY.
  destruct (Z.leb_spec (start * 86400) (csv_check_in_time c)),
           (Z.ltb_spec (csv_check_in_time c) (end_ * 86400)),
           (Z.ltb_spec (csv_check_in_time c) (middle * 86400)),
           (Z.leb_spec (middle * 86400) (csv_check_in_time c));
    cbn [andb orb]; try reflexivity; lia.
Qed.

Lemma between_days_disjoint start middle end_ c :
  csv_between_days start middle c && csv_between_days middle end_ c = false.
Proof.
  unfold csv_between_days, SECONDS_PER_DAY.
  destruct (Z.ltb_spec (csv_check_in_time c) (middle * 86400)),
           (Z.leb_spec (middle * 86400) (csv_check_in_time c));
    try lia; cbn [andb]; now rewrite ?andb_false_r.
Qed.

End AdjacentRanges.

(** X17.  Adjacent ranges add up.  For a loaded table and three dates
    [start <= middle <= end_], and as long as the cells stay where float64
    additions are exact, every cell of the figure for the range from
    [start] to [end_] is the sum of the cells for the range from [start] to
    [middle] and for the range from [middle] to [end_]: no check-in is
    counted in both halves. *)
Theorem X17_adjacent_ranges_add_up :
  forall csv start middle end_ clinics admit_type,
    fits_float64 (load csv) clinics ->
    start <= middle -> middle <= end_ ->
    exists fig1 fig2 fig,
      update_heatmap (load csv) start middle clinics admit_type = Some fig1
      /\ update_heatmap (load csv) middle end_ clinics admit_type = Some fig2
      /\ update_heatmap (load csv) start end_ clinics admit_type = Some fig
      /\ forall i j,
           exists a b,
             cell (fig_z fig1) i j = Finite a
             /\ cell (fig_z fig2) i j = Finite b
             /\ cell (fig_z fig) i j = Finite (a + b).
Proof.
  intros csv start middle end_ clinics admit_type Hfit H1 H2.
  unfold update_heatmap. do 3 eexists.
  split; [now apply heatmap_exact_form|].
  split; [now apply heatmap_exact_form|].
  split; [now apply heatmap_exact_form|].
  intros i j. cbn [fig_z]. do 2 eexists.
  split; [apply cell_build_exact|]. split; [apply cell_build_exact|].
  rewrite cell_build_exact. f_equal.
  destruct (Nat.ltb i 7 && Nat.ltb j 24); [|reflexivity].
  unfold heatmap_cell.
  destruct (nth_error day_list i) as [day|]; [|reflexivity].
  destruct (nth_error x_axis j) as [x_val|] eqn:Ex; [|reflexivity].
  assert (Hx : In x_val x_axis) by (eapply nth_error_In; exact Ex).
  rewrite !sum_clinic_cell. unfold weighted_cell.
  rewrite !sum_map_load, <- sum_map_add.
  apply sum_map_ext. intros c _.
  rewrite !(cell_test_between_days c _ _ admit_type day x_val Hx).
  rewrite (between_days_split start middle end_ c H1 H2).
  pose proof (between_days_disjoint start middle end_ c) as Hd.
  destruct (csv_between_days start middle c),
           (csv_between_days middle end_ c); try discriminate;
    cbn [andb orb];
    destruct (isin (Admit_Source (load_row c)) admit_type
              && String.eqb (Days_of_Wk (load_row c)) day
              && String.eqb (Check_In_Hour (load_row c)) x_val); lia.
Qed.

Lemma X17_witness :
  fits_float64 (load csv_week) ["A"; "B"]%string
  /\ date 2022 5 1 <= date 2022 5 4 /\ date 2022 5 4 <= date 2022 5 8
  /\ exists fig1 fig2 fig,
       update_heatmap (load csv_week) (date 2022 5 1) (date 2022 5 4)
         ["A"; "B"]%string ["X"; "Y"]%string = Some fig1
       /\ update_heatmap (load csv_week) (date 2022 5 4) (date 2022 5 8)
            ["A"; "B"]%string ["X"; "Y"]%string = Some fig2
       /\ update_heatmap (load csv_week) (date 2022 5 1) (date 2022 5 8)
            ["A"; "B"]%string ["X"; "Y"]%string = Some fig
       /\ forall i j,
            exists a b,
              cell (fig_z fig1) i j = Finite a
              /\ cell (fig_z fig2) i j = Finite b
              /\ cell (fig_z fig) i j = Finite (a + b).
Proof.
  assert (Hf : fits_float64 (load csv_week) ["A"; "B"]%string)
    by (vm_compute; discriminate).
  assert (H1 : date 2022 5 1 <= date 2022 5 4) by (vm_compute; discriminate).
  assert (H2 : date 2022 5 4 <= date 2022 5 8) by (vm_compute; discriminate).
  split; [exact Hf|]. split; [exact H1|]. split; [exact H2|].
  exact (X17_adjacent_ranges_add_up csv_week _ _ _
           ["A"; "B"]%string ["X"; "Y"]%string Hf H1 H2).
Defined.
